(** * spaint: the per-frame control loop of [SLAMComponent]

    A shallow embedding of [SLAMComponent::run], [set_fusion_enabled] and
    [get_fusion_enabled] (modules/spaint/src/pipelinecomponents/SLAMComponent.cpp)
    together with the properties of the frame-processing state machine:
    tracking-quality resolution, relocalisation recovery, the fusion gate,
    pose rollback and the end-of-stream handling.

    The component drives a number of collaborators (image source, view
    builder, tracking controller, relocaliser, pose database, dense mapper).
    Their answers during one call of [run] are gathered in a [Frame]; the
    calls the component makes to them are recorded, in order, as [Event]s. *)

From Stdlib Require Import ZArith NArith List Bool Lia.
From stdpp Require Import base option gmap.
Import ListNotations.

Set Default Proof Using "Type".

(** ** Enumerations of ITMLib used by the component *)

(** [ITMTrackingState::TrackingResult]. *)
Inductive TrackingResult : Set :=
| TRACKING_GOOD
| TRACKING_POOR
| TRACKING_FAILED.

(** [ITMLibSettings::FailureMode]; the [default:] label of the switch in
    [run] shares the body of [FAILUREMODE_IGNORE]. *)
Inductive FailureMode : Set :=
| FAILUREMODE_RELOCALISE
| FAILUREMODE_IGNORE
| FAILUREMODE_STOP_INTEGRATION.

Definition TrackingResult_eqb (a b : TrackingResult) : bool :=
  match a, b with
  | TRACKING_GOOD, TRACKING_GOOD
  | TRACKING_POOR, TRACKING_POOR
  | TRACKING_FAILED, TRACKING_FAILED => true
  | _, _ => false
  end.

Lemma TrackingResult_eqb_eq a b : TrackingResult_eqb a b = true <-> a = b.
Proof. destruct a, b; simpl; split; congruence. Qed.

Lemma TrackingResult_eqb_neq a b : TrackingResult_eqb a b = false <-> a <> b.
Proof. destruct a, b; simpl; split; congruence. Qed.

(** ** [size_t] counters

    The three counters of the component are [size_t] members, declared in
    SLAMComponent.h: unsigned, 64 bits wide on the platforms spaint builds
    for.  Incrementing the largest value wraps around to 0. *)
Definition SIZE_MAX : N := 18446744073709551615%N.

(** [++n] on a [size_t]. *)
Definition size_t_incr (n : N) : N := ((n + 1) mod (SIZE_MAX + 1))%N.

Arguments size_t_incr : simpl never.


Lemma size_t_incr_max : size_t_incr SIZE_MAX = 0%N.
Proof. reflexivity. Qed.

Lemma size_t_incr_range (n : N) : (size_t_incr n <= SIZE_MAX)%N.
Proof.
  unfold size_t_incr.
  pose proof (N.mod_upper_bound (n + 1) (SIZE_MAX + 1)) as Hb. lia.
Qed.

Section SLAM.

(** [ORUtils::SE3Pose] is kept abstract: the component only copies poses
    around.  The distinguished inhabitant stands for the default-constructed
    pose that the pose database holds at an id nothing was stored under. *)
Context {Pose : Type} `{!Inhabited Pose}.

(** ** Calls made to the collaborators

    The calls by which [run] acts on its collaborators or asks the fallible
    tracker, in the order it makes them.  The two questions it puts to the
    image source ([hasMoreImages] on entry, line 98, and on the current
    sub-engine at the end, line 213) are not recorded: their answers are
    fields of the [Frame]. *)

Inductive Event : Type :=
| EvGetImages                                  (* m_imageSourceEngine->getImages *)
| EvUpdateView                                 (* m_viewBuilder->UpdateView, set_view *)
| EvTrack (pose : Pose)                        (* m_trackingController->Track, pose on entry *)
| EvUpdateHostFromDevice                       (* view->depth->UpdateHostFromDevice *)
| EvRelocProcessFrame (considerKeyframe : bool) (* m_relocaliser->ProcessFrame *)
| EvStorePose (id : Z) (pose : Pose)           (* m_poseDatabase->storePose *)
| EvRetrievePose (id : Z)                      (* m_poseDatabase->retrievePose *)
| EvUpdateVisibleList (pose : Pose) (resetVisibleList : bool)
                                               (* m_denseMapper->UpdateVisibleList *)
| EvPrepare (pose : Pose)                      (* m_trackingController->Prepare *)
| EvFuse (pose : Pose)                         (* m_denseMapper->ProcessFrame *)
| EvLostTracking.                              (* m_fallibleTracker->lost_tracking *)

(** ** Session state

    The members of [SLAMComponent] that [run] reads or writes, the two
    fields of the shared [ITMTrackingState] it touches, and the failure mode
    from the settings.  The three counters are [size_t] values, held as
    naturals up to [SIZE_MAX]: they start at 0, 50 and 0; the fused-frame
    count is only ever incremented (wrapping around at [SIZE_MAX]), the
    keyframe delay is decremented when non-zero or set to 10, and the
    number of initial frames is never written. *)
Record SLAMState : Type := mkState {
  m_fusedFramesCount : N;
  m_fusionEnabled : bool;
  m_initialFramesToFuse : N;
  m_keyframeDelay : N;
  m_fallibleTracker : bool;             (* is the pointer non-NULL? *)
  m_poseDatabase : gmap Z Pose;
  behaviourOnFailure : FailureMode;     (* m_context->get_settings() *)
  pose_d : Pose;                        (* *trackingState->pose_d *)
  trackerResult : TrackingResult        (* trackingState->trackerResult *)
}.

Definition with_fusedFramesCount (n : N) (s : SLAMState) : SLAMState :=
  mkState n (m_fusionEnabled s) (m_initialFramesToFuse s) (m_keyframeDelay s)
    (m_fallibleTracker s) (m_poseDatabase s) (behaviourOnFailure s) (pose_d s)
    (trackerResult s).

Definition with_fusionEnabled (b : bool) (s : SLAMState) : SLAMState :=
  mkState (m_fusedFramesCount s) b (m_initialFramesToFuse s) (m_keyframeDelay s)
    (m_fallibleTracker s) (m_poseDatabase s) (behaviourOnFailure s) (pose_d s)
    (trackerResult s).

Definition with_keyframeDelay (n : N) (s : SLAMState) : SLAMState :=
  mkState (m_fusedFramesCount s) (m_fusionEnabled s) (m_initialFramesToFuse s) n
    (m_fallibleTracker s) (m_poseDatabase s) (behaviourOnFailure s) (pose_d s)
    (trackerResult s).

Definition with_poseDatabase (db : gmap Z Pose) (s : SLAMState) : SLAMState :=
  mkState (m_fusedFramesCount s) (m_fusionEnabled s) (m_initialFramesToFuse s)
    (m_keyframeDelay s) (m_fallibleTracker s) db (behaviourOnFailure s) (pose_d s)
    (trackerResult s).

Definition with_pose_d (p : Pose) (s : SLAMState) : SLAMState :=
  mkState (m_fusedFramesCount s) (m_fusionEnabled s) (m_initialFramesToFuse s)
    (m_keyframeDelay s) (m_fallibleTracker s) (m_poseDatabase s)
    (behaviourOnFailure s) p (trackerResult s).

Definition with_trackerResult (r : TrackingResult) (s : SLAMState) : SLAMState :=
  mkState (m_fusedFramesCount s) (m_fusionEnabled s) (m_initialFramesToFuse s)
    (m_keyframeDelay s) (m_fallibleTracker s) (m_poseDatabase s)
    (behaviourOnFailure s) (pose_d s) r.

(** ** What the collaborators answer during one call of [run] *)

Record Frame : Type := mkFrame {
  (* m_imageSourceEngine->hasMoreImages() on entry *)
  hasMoreImages : bool;
  (* the tracker on the first Track call: the pose it leaves in
     trackingState->pose_d and the verdict it leaves in trackerResult *)
  Track : Pose -> Pose * TrackingResult;
  (* m_relocaliser->ProcessFrame(depth, 1, &nearestNeighbour, NULL,
     considerKeyframe): the returned keyframe id and the nearest neighbour *)
  ProcessFrame : bool -> Z * Z;
  (* the tracker on the Track call of the relocalisation recovery *)
  Retrack : Pose -> Pose * TrackingResult;
  (* m_fallibleTracker->lost_tracking() *)
  lost_tracking : bool;
  (* m_imageSourceEngine->getCurrentSubengine()->hasMoreImages() at the end *)
  subengineHasMoreImages : bool
}.

(** ** A state monad that also records the calls made *)

Definition M (A : Type) : Type := SLAMState -> A * SLAMState * list Event.

Definition ret {A} (a : A) : M A := fun s => (a, s, []).

Definition bind {A B} (m : M A) (k : A -> M B) : M B :=
  fun s =>
    let '(a, s1, l1) := m s in
    let '(b, s2, l2) := k a s1 in
    (b, s2, l1 ++ l2).

Definition gets {A} (proj : SLAMState -> A) : M A := fun s => (proj s, s, []).

Definition modify (upd : SLAMState -> SLAMState) : M unit :=
  fun s => (tt, upd s, []).

Definition emit (e : Event) : M unit := fun s => (tt, s, [e]).

Definition value {A} (r : A * SLAMState * list Event) : A := r.1.1.
Definition state_of {A} (r : A * SLAMState * list Event) : SLAMState := r.1.2.
Definition events {A} (r : A * SLAMState * list Event) : list Event := r.2.

Arguments value {A} !r /.
Arguments state_of {A} !r /.
Arguments events {A} !r /.

Declare Scope slam_scope.
Delimit Scope slam_scope with slam.
Notation "'let*' x ':=' m 'in' k" := (bind m (fun x => k))
  (at level 10, x name, m at level 100, k at level 200) : slam_scope.
Notation "m '>>' k" := (bind m (fun _ => k))
  (at level 100, k at level 200, right associativity) : slam_scope.
Local Open Scope slam_scope.

(** ** The collaborators, as seen from [run] *)

(** [m_trackingController->Track(trackingState, view)]: the tracker reads
    the pose and leaves a new pose and a verdict in the tracking state. *)
Definition TrackingController_Track (tracker : Pose -> Pose * TrackingResult)
  : M unit :=
  fun s =>
    let tracked := tracker (pose_d s) in
    (tt, with_trackerResult tracked.2 (with_pose_d tracked.1 s),
     [EvTrack (pose_d s)]).

(** [m_trackingController->Prepare(...)]: raycasts from the current pose;
    it renders into the live render state and does not move [pose_d]. *)
Definition TrackingController_Prepare : M unit :=
  fun s => (tt, s, [EvPrepare (pose_d s)]).

(** [m_denseMapper->ProcessFrame(...)]: fuses the view into the scene. *)
Definition DenseMapper_ProcessFrame : M unit :=
  fun s => (tt, s, [EvFuse (pose_d s)]).

(** [m_denseMapper->UpdateVisibleList(..., resetVisibleList)]; the
    parameter defaults to [false] where the call site omits it. *)
Definition DenseMapper_UpdateVisibleList (resetVisibleList : bool) : M unit :=
  fun s => (tt, s, [EvUpdateVisibleList (pose_d s) resetVisibleList]).

(** [m_relocaliser->ProcessFrame(view->depth, 1, &nearestNeighbour, NULL,
    considerKeyframe)]. *)
Definition Relocaliser_ProcessFrame (f : Frame) (considerKeyframe : bool)
  : M (Z * Z) :=
  fun s => (ProcessFrame f considerKeyframe, s,
            [EvRelocProcessFrame considerKeyframe]).

(** Modelled from the spec: the pose database belongs to RelocLib, outside
    this repository; its interface is [PoseDatabase.store(id, pose)] and
    [PoseDatabase.retrieve(id) -> pose], a pose per keyframe id.  An id
    nothing was stored under yields the default pose. *)
Definition storePose (id : Z) (pose : Pose) : M unit :=
  fun s => (tt, with_poseDatabase (<[id := pose]> (m_poseDatabase s)) s,
            [EvStorePose id pose]).

Definition retrievePose (id : Z) : M Pose :=
  fun s => (m_poseDatabase s !!! id, s, [EvRetrievePose id]).

(** [m_fallibleTracker && m_fallibleTracker->lost_tracking()]: the tracker
    is only asked when the pointer is set. *)
Definition fallible_tracker_lost (f : Frame) : M bool :=
  let* present := gets m_fallibleTracker in
  if present then emit EvLostTracking >> ret (lost_tracking f) else ret false.

(** ** [SLAMComponent::run], phase by phase *)

(** Lines 107-112: get the next frame and rebuild the view. *)
Definition get_next_frame : M unit :=
  emit EvGetImages >> emit EvUpdateView.

(** Line 116: track the camera, once something has been fused. *)
Definition track_camera (f : Frame) : M unit :=
  let* fusedFramesCount := gets m_fusedFramesCount in
  if (0 <? fusedFramesCount)%N then TrackingController_Track (Track f)
  else ret tt.

(** Lines 127-133: should the relocaliser consider this frame as a keyframe? *)
Definition decide_considerKeyframe (trackerResult : TrackingResult) : M bool :=
  match trackerResult with
  | TRACKING_GOOD =>
      let* keyframeDelay := gets m_keyframeDelay in
      if (keyframeDelay =? 0)%N then ret true
      else modify (with_keyframeDelay (N.pred keyframeDelay)) >> ret false
  | _ => ret false
  end.

(** Lines 149-161: reset the pose to that of the nearest keyframe and rerun
    the tracker for this frame. *)
Definition relocalisation_recovery (f : Frame) (nearestNeighbour : Z)
  : M TrackingResult :=
  let* keyframePose := retrievePose nearestNeighbour in
  modify (with_pose_d keyframePose) >>
  DenseMapper_UpdateVisibleList true >>
  TrackingController_Prepare >>
  TrackingController_Track (Retrack f) >>
  let* trackerResult := gets trackerResult in
  modify (with_keyframeDelay 10) >>
  ret trackerResult.

(** Lines 122-165: the body of [case FAILUREMODE_RELOCALISE]. *)
Definition relocalise (f : Frame) (trackerResult : TrackingResult)
  : M TrackingResult :=
  emit EvUpdateHostFromDevice >>
  let* considerKeyframe := decide_considerKeyframe trackerResult in
  let* reply := Relocaliser_ProcessFrame f considerKeyframe in
  let keyframeID := reply.1 in
  let nearestNeighbour := reply.2 in
  if (0 <=? keyframeID)%Z then
    let* pose := gets pose_d in
    storePose keyframeID pose >> ret trackerResult
  else if TrackingResult_eqb trackerResult TRACKING_FAILED
          && negb (nearestNeighbour =? -1)%Z then
    relocalisation_recovery f nearestNeighbour
  else ret trackerResult.

(** Lines 119-181: the tracking quality, taking the failure mode into
    account.  The verdict is read from the tracking state whether or not
    the tracker ran for this frame. *)
Definition determine_tracking_quality (f : Frame) : M TrackingResult :=
  let* trackerResult := gets trackerResult in
  let* mode := gets behaviourOnFailure in
  match mode with
  | FAILUREMODE_RELOCALISE => relocalise f trackerResult
  | FAILUREMODE_STOP_INTEGRATION =>
      ret (if TrackingResult_eqb trackerResult TRACKING_FAILED
           then TRACKING_POOR else trackerResult)
  | FAILUREMODE_IGNORE => ret TRACKING_GOOD
  end.

(** Lines 184-190: decide whether or not fusion should be run.  The
    disjunction is evaluated left to right and stops at the first true
    operand, so the fallible tracker is asked last. *)
Definition decide_runFusion (f : Frame) (trackerResult : TrackingResult)
  : M bool :=
  let* runFusion := gets m_fusionEnabled in
  let* fusedFramesCount := gets m_fusedFramesCount in
  let* initialFramesToFuse := gets m_initialFramesToFuse in
  if TrackingResult_eqb trackerResult TRACKING_FAILED then ret false
  else if TrackingResult_eqb trackerResult TRACKING_POOR
          && (initialFramesToFuse <=? fusedFramesCount)%N then ret false
  else
    let* lost := fallible_tracker_lost f in
    if lost then ret false else ret runFusion.

(** Lines 192-207: fuse, or keep the visible list up to date, or restore
    the pose of the previous frame. *)
Definition apply_outcome (runFusion : bool) (trackerResult : TrackingResult)
    (oldPose : Pose) : M unit :=
  if runFusion then
    DenseMapper_ProcessFrame >>
    let* fusedFramesCount := gets m_fusedFramesCount in
    modify (with_fusedFramesCount (size_t_incr fusedFramesCount))
  else if negb (TrackingResult_eqb trackerResult TRACKING_FAILED) then
    DenseMapper_UpdateVisibleList false
  else modify (with_pose_d oldPose).

(** Line 213: disable fusion once the current sub-engine has run dry.
    The question to the sub-engine is answered by the [Frame] and, like
    the one on entry, leaves no [Event]. *)
Definition check_subengine (f : Frame) : M unit :=
  if negb (subengineHasMoreImages f) then modify (with_fusionEnabled false)
  else ret tt.

(** Lines 96-216.  Without a frame the call returns [false] at once;
    [oldPose] is the copy of the pose taken before the tracking step. *)
Definition run (f : Frame) : M bool :=
  if negb (hasMoreImages f) then ret false
  else
    get_next_frame >>
    let* oldPose := gets pose_d in
    track_camera f >>
    let* trackerResult := determine_tracking_quality f in
    let* runFusion := decide_runFusion f trackerResult in
    apply_outcome runFusion trackerResult oldPose >>
    TrackingController_Prepare >>
    check_subengine f >>
    ret true.

(** Lines 91-94 and 218-221. *)
Definition get_fusion_enabled (s : SLAMState) : bool := m_fusionEnabled s.

Definition set_fusion_enabled (fusionEnabled : bool) (s : SLAMState) : SLAMState :=
  with_fusionEnabled fusionEnabled s.

(** ** What can be observed of one call *)

(** Lines 107-119: the verdict found in the tracking state once the
    tracking step is over, before the failure mode is looked at. *)
Definition raw_verdict (f : Frame) (s : SLAMState) : TrackingResult :=
  value ((get_next_frame >> track_camera f >> gets trackerResult) s).

(** Lines 107-181: the verdict the fusion decision is taken on. *)
Definition effective_verdict (f : Frame) (s : SLAMState) : TrackingResult :=
  value ((get_next_frame >> track_camera f >> determine_tracking_quality f) s).

Definition is_fuse (e : Event) : bool :=
  match e with EvFuse _ => true | _ => false end.

(** The dense mapper was asked to fuse during the call. *)
Definition fusion_executed (f : Frame) (s : SLAMState) : bool :=
  existsb is_fuse (events (run f s)).

Definition is_consider (e : Event) : bool :=
  match e with EvRelocProcessFrame true => true | _ => false end.

(** The relocaliser was asked to consider the frame as a keyframe. *)
Definition considers_keyframe (f : Frame) (s : SLAMState) : bool :=
  existsb is_consider (events (run f s)).

Definition is_retrieve (e : Event) : bool :=
  match e with EvRetrievePose _ => true | _ => false end.

(** The pose of a stored keyframe was fetched, which only the
    relocalisation recovery does. *)
Definition recovery_triggered (f : Frame) (s : SLAMState) : bool :=
  existsb is_retrieve (events (run f s)).

(** ** Equations of the monad *)

Lemma value_bind {A B} (m : M A) (k : A -> M B) s :
  value (bind m k s) = value (k (value (m s)) (state_of (m s))).
Proof.
  unfold bind, value, state_of. destruct (m s) as [[a s1] l1]. simpl.
  destruct (k a s1) as [[b s2] l2]. reflexivity.
Qed.

Lemma state_of_bind {A B} (m : M A) (k : A -> M B) s :
  state_of (bind m k s) = state_of (k (value (m s)) (state_of (m s))).
Proof.
  unfold bind, value, state_of. destruct (m s) as [[a s1] l1]. simpl.
  destruct (k a s1) as [[b s2] l2]. reflexivity.
Qed.

Lemma events_bind {A B} (m : M A) (k : A -> M B) s :
  events (bind m k s) = events (m s) ++ events (k (value (m s)) (state_of (m s))).
Proof.
  unfold bind, value, state_of, events. destruct (m s) as [[a s1] l1]. simpl.
  destruct (k a s1) as [[b s2] l2]. reflexivity.
Qed.

Lemma state_of_emit e s : state_of (emit e s) = s.
Proof. reflexivity. Qed.

Lemma events_emit e s : events (emit e s) = [e].
Proof. reflexivity. Qed.

Lemma value_gets {A} (proj : SLAMState -> A) s : value (gets proj s) = proj s.
Proof. reflexivity. Qed.

Lemma state_of_gets {A} (proj : SLAMState -> A) s : state_of (gets proj s) = s.
Proof. reflexivity. Qed.

Lemma events_gets {A} (proj : SLAMState -> A) s : events (gets proj s) = [].
Proof. reflexivity. Qed.

Lemma state_of_modify upd s : state_of (modify upd s) = upd s.
Proof. reflexivity. Qed.

Lemma events_modify upd s : events (modify upd s) = [].
Proof. reflexivity. Qed.

Lemma value_ret {A} (a : A) s : value (ret a s) = a.
Proof. reflexivity. Qed.

Lemma state_of_ret {A} (a : A) s : state_of (ret a s) = s.
Proof. reflexivity. Qed.

Lemma events_ret {A} (a : A) s : events (ret a s) = [].
Proof. reflexivity. Qed.

Lemma result_eta {A} (r : A * SLAMState * list Event) :
  r = (value r, state_of r, events r).
Proof. destruct r as [[a s] l]. reflexivity. Qed.

Create Rewrite HintDb slam.
#[local] Hint Rewrite @value_bind @state_of_bind @events_bind state_of_emit
  events_emit @value_gets @state_of_gets @events_gets state_of_modify
  events_modify @value_ret @state_of_ret @events_ret : slam.

(** ** The phases of [run], one at a time *)

Ltac unfold_monad :=
  unfold bind, ret, gets, modify, emit, value, state_of, events in *.

Ltac unfold_collaborators :=
  unfold TrackingController_Track, TrackingController_Prepare,
    DenseMapper_ProcessFrame, DenseMapper_UpdateVisibleList,
    Relocaliser_ProcessFrame, storePose, retrievePose in *.

Ltac case_on_match :=
  match goal with
  | |- context [match ?x with _ => _ end] =>
      lazymatch x with
      | context [match _ with _ => _ end] => fail
      | _ => destruct x eqn:?
      end
  end.

Ltac run_cases := repeat (simpl; try case_on_match).

Lemma track_camera_eq (f : Frame) (s : SLAMState) :
  track_camera f s =
  if (0 <? m_fusedFramesCount s)%N
  then (tt,
        with_trackerResult (Track f (pose_d s)).2
          (with_pose_d (Track f (pose_d s)).1 s),
        [EvTrack (pose_d s)])
  else (tt, s, []).
Proof.
  unfold track_camera. unfold_collaborators. unfold_monad.
  simpl. destruct (0 <? m_fusedFramesCount s)%N; reflexivity.
Qed.

(** The members the fusion decision reads are out of reach of the tracking
    step and of the failure-mode switch. *)
Definition same_gate_inputs (s s' : SLAMState) : Prop :=
  m_fusionEnabled s' = m_fusionEnabled s /\
  m_fusedFramesCount s' = m_fusedFramesCount s /\
  m_initialFramesToFuse s' = m_initialFramesToFuse s /\
  m_fallibleTracker s' = m_fallibleTracker s /\
  behaviourOnFailure s' = behaviourOnFailure s.

Lemma track_camera_frame (f : Frame) (s : SLAMState) :
  same_gate_inputs s (state_of (track_camera f s)) /\
  m_keyframeDelay (state_of (track_camera f s)) = m_keyframeDelay s /\
  m_poseDatabase (state_of (track_camera f s)) = m_poseDatabase s /\
  existsb is_fuse (events (track_camera f s)) = false.
Proof.
  rewrite track_camera_eq. unfold same_gate_inputs.
  destruct (0 <? m_fusedFramesCount s)%N; simpl; repeat split; reflexivity.
Qed.

Lemma quality_frame (f : Frame) (s : SLAMState) :
  same_gate_inputs s (state_of (determine_tracking_quality f s)) /\
  existsb is_fuse (events (determine_tracking_quality f s)) = false.
Proof.
  unfold same_gate_inputs, determine_tracking_quality, relocalise,
    relocalisation_recovery, decide_considerKeyframe.
  unfold_collaborators. unfold_monad.
  run_cases; repeat split; simpl; congruence.
Qed.

Lemma decide_runFusion_eq (f : Frame) (r : TrackingResult) (s : SLAMState) :
  state_of (decide_runFusion f r s) = s /\
  existsb is_fuse (events (decide_runFusion f r s)) = false /\
  value (decide_runFusion f r s) =
    m_fusionEnabled s
    && negb (TrackingResult_eqb r TRACKING_FAILED
             || TrackingResult_eqb r TRACKING_POOR
                && (m_initialFramesToFuse s <=? m_fusedFramesCount s)%N
             || m_fallibleTracker s && lost_tracking f).
Proof.
  unfold decide_runFusion, fallible_tracker_lost. unfold_monad.
  destruct r; run_cases; repeat split; simpl;
    destruct (m_fusionEnabled s); reflexivity.
Qed.

Lemma apply_outcome_eq (runFusion : bool) (r : TrackingResult) (oldPose : Pose)
    (s : SLAMState) :
  apply_outcome runFusion r oldPose s =
  if runFusion then
    (tt, with_fusedFramesCount (size_t_incr (m_fusedFramesCount s)) s,
     [EvFuse (pose_d s)])
  else if TrackingResult_eqb r TRACKING_FAILED then
    (tt, with_pose_d oldPose s, [])
  else (tt, s, [EvUpdateVisibleList (pose_d s) false]).
Proof.
  unfold apply_outcome. unfold_collaborators. unfold_monad.
  destruct runFusion, r; reflexivity.
Qed.

(** A call of [run] that finds a frame, cut into its phases. *)
Lemma run_phases (f : Frame) (s : SLAMState) :
  hasMoreImages f = true ->
  let t := track_camera f s in
  let q := determine_tracking_quality f (state_of t) in
  let g := decide_runFusion f (value q) (state_of q) in
  let a := apply_outcome (value g) (value q) (pose_d s) (state_of q) in
  run f s =
  (true, state_of (check_subengine f (state_of a)),
   [EvGetImages; EvUpdateView] ++ events t ++ events q ++ events g
     ++ events a ++ [EvPrepare (pose_d (state_of a))]).
Proof.
  intros Hmore. simpl. unfold run. rewrite Hmore. simpl.
  destruct (decide_runFusion_eq f
              (value (determine_tracking_quality f (state_of (track_camera f s))))
              (state_of (determine_tracking_quality f (state_of (track_camera f s)))))
    as [Hg _].
  rewrite (result_eta (bind _ _ s)).
  unfold get_next_frame, TrackingController_Prepare.
  autorewrite with slam. simpl. rewrite Hg.
  unfold check_subengine.
  destruct (negb (subengineHasMoreImages f)); autorewrite with slam;
    simpl; rewrite ?app_nil_r; reflexivity.
Qed.

Lemma effective_verdict_eq (f : Frame) (s : SLAMState) :
  effective_verdict f s =
  value (determine_tracking_quality f (state_of (track_camera f s))).
Proof.
  unfold effective_verdict, get_next_frame. autorewrite with slam. reflexivity.
Qed.

Lemma raw_verdict_eq (f : Frame) (s : SLAMState) :
  raw_verdict f s = trackerResult (state_of (track_camera f s)).
Proof.
  unfold raw_verdict, get_next_frame. autorewrite with slam. reflexivity.
Qed.

(** The gate reads the members as they were when [run] was entered. *)
Lemma gate_inputs_at_decision (f : Frame) (s : SLAMState) :
  same_gate_inputs s
    (state_of (determine_tracking_quality f (state_of (track_camera f s)))).
Proof.
  destruct (track_camera_frame f s) as [(H1 & H2 & H3 & H4 & H5) _].
  destruct (quality_frame f (state_of (track_camera f s)))
    as [(K1 & K2 & K3 & K4 & K5) _].
  unfold same_gate_inputs. repeat split; congruence.
Qed.

(** The value of [runFusion] at line 192, in terms of the state on entry. *)
Definition gate_open (f : Frame) (s : SLAMState) : bool :=
  m_fusionEnabled s
  && negb (TrackingResult_eqb (effective_verdict f s) TRACKING_FAILED
           || TrackingResult_eqb (effective_verdict f s) TRACKING_POOR
              && (m_initialFramesToFuse s <=? m_fusedFramesCount s)%N
           || m_fallibleTracker s && lost_tracking f).

Lemma runFusion_eq (f : Frame) (s : SLAMState) :
  let q := determine_tracking_quality f (state_of (track_camera f s)) in
  value (decide_runFusion f (value q) (state_of q)) = gate_open f s.
Proof.
  simpl.
  destruct (decide_runFusion_eq f
    (value (determine_tracking_quality f (state_of (track_camera f s))))
    (state_of (determine_tracking_quality f (state_of (track_camera f s)))))
    as (_ & _ & ->).
  destruct (gate_inputs_at_decision f s) as (-> & -> & -> & -> & _).
  unfold gate_open. rewrite effective_verdict_eq. reflexivity.
Qed.

Lemma fusion_executed_eq (f : Frame) (s : SLAMState) :
  hasMoreImages f = true -> fusion_executed f s = gate_open f s.
Proof.
  intros Hmore. unfold fusion_executed.
  rewrite (run_phases f s Hmore). cbv zeta.
  rewrite runFusion_eq.
  change (events (?a, ?b, ?l)) with l.
  rewrite !existsb_app.
  destruct (track_camera_frame f s) as (_ & _ & _ & ->).
  destruct (quality_frame f (state_of (track_camera f s))) as [_ ->].
  destruct (decide_runFusion_eq f
    (value (determine_tracking_quality f (state_of (track_camera f s))))
    (state_of (determine_tracking_quality f (state_of (track_camera f s)))))
    as (_ & -> & _).
  rewrite apply_outcome_eq.
  destruct (gate_open f s); simpl; [reflexivity |].
  destruct (TrackingResult_eqb _ _); reflexivity.
Qed.

(** The body of [case FAILUREMODE_RELOCALISE], branch by branch. *)
Definition considerKeyframe_flag (r : TrackingResult) (s : SLAMState) : bool :=
  TrackingResult_eqb r TRACKING_GOOD && (m_keyframeDelay s =? 0)%N.

Definition after_keyframe_decision (r : TrackingResult) (s : SLAMState)
  : SLAMState :=
  if TrackingResult_eqb r TRACKING_GOOD && negb (m_keyframeDelay s =? 0)%N
  then with_keyframeDelay (N.pred (m_keyframeDelay s)) s
  else s.

Lemma relocalise_eq (f : Frame) (r : TrackingResult) (s : SLAMState) :
  let flag := considerKeyframe_flag r s in
  let s0 := after_keyframe_decision r s in
  let keyframeID := (ProcessFrame f flag).1 in
  let nearestNeighbour := (ProcessFrame f flag).2 in
  let keyframePose := m_poseDatabase s !!! nearestNeighbour in
  relocalise f r s =
  if (0 <=? keyframeID)%Z then
    (r,
     with_poseDatabase (<[keyframeID := pose_d s]> (m_poseDatabase s)) s0,
     [EvUpdateHostFromDevice; EvRelocProcessFrame flag;
      EvStorePose keyframeID (pose_d s)])
  else if TrackingResult_eqb r TRACKING_FAILED
          && negb (nearestNeighbour =? -1)%Z then
    ((Retrack f keyframePose).2,
     with_keyframeDelay 10
       (with_trackerResult (Retrack f keyframePose).2
          (with_pose_d (Retrack f keyframePose).1 s)),
     [EvUpdateHostFromDevice; EvRelocProcessFrame flag;
      EvRetrievePose nearestNeighbour;
      EvUpdateVisibleList keyframePose true;
      EvPrepare keyframePose;
      EvTrack keyframePose])
  else (r, s0, [EvUpdateHostFromDevice; EvRelocProcessFrame flag]).
Proof.
  unfold relocalise, relocalisation_recovery, decide_considerKeyframe,
    considerKeyframe_flag, after_keyframe_decision.
  unfold_collaborators. unfold_monad.
  destruct r; simpl; destruct (m_keyframeDelay s =? 0)%N; simpl;
    repeat (case_on_match; simpl); reflexivity.
Qed.

Lemma determine_tracking_quality_eq (f : Frame) (s : SLAMState) :
  determine_tracking_quality f s =
  match behaviourOnFailure s with
  | FAILUREMODE_RELOCALISE => relocalise f (trackerResult s) s
  | FAILUREMODE_STOP_INTEGRATION =>
      (if TrackingResult_eqb (trackerResult s) TRACKING_FAILED
       then TRACKING_POOR else trackerResult s, s, [])
  | FAILUREMODE_IGNORE => (TRACKING_GOOD, s, [])
  end.
Proof.
  unfold determine_tracking_quality. unfold_monad. simpl.
  destruct (behaviourOnFailure s); try reflexivity.
  destruct (relocalise f (trackerResult s) s) as [[a b] c]. reflexivity.
Qed.

Lemma check_subengine_eq (f : Frame) (s : SLAMState) :
  check_subengine f s =
  (tt, if subengineHasMoreImages f then s else with_fusionEnabled false s, []).
Proof.
  unfold check_subengine. unfold_monad.
  destruct (subengineHasMoreImages f); reflexivity.
Qed.

(** The state a call of [run] that finds a frame leaves behind. *)
Lemma run_state_eq (f : Frame) (s : SLAMState) :
  hasMoreImages f = true ->
  let q := state_of (determine_tracking_quality f (state_of (track_camera f s))) in
  let a := if gate_open f s then
             with_fusedFramesCount (size_t_incr (m_fusedFramesCount q)) q
           else if TrackingResult_eqb (effective_verdict f s) TRACKING_FAILED
                then with_pose_d (pose_d s) q
                else q in
  state_of (run f s) =
  if subengineHasMoreImages f then a else with_fusionEnabled false a.
Proof.
  intros Hmore. rewrite (run_phases f s Hmore). cbv zeta.
  rewrite runFusion_eq, apply_outcome_eq, check_subengine_eq.
  rewrite <- effective_verdict_eq.
  change (state_of (?a, ?b, ?l)) with b.
  destruct (gate_open f s); [reflexivity |].
  destruct (TrackingResult_eqb _ _); reflexivity.
Qed.

Lemma run_value (f : Frame) (s : SLAMState) :
  value (run f s) = hasMoreImages f.
Proof.
  destruct (hasMoreImages f) eqn:Hmore.
  - rewrite (run_phases f s Hmore). reflexivity.
  - unfold run. rewrite Hmore. reflexivity.
Qed.

Lemma run_no_images (f : Frame) (s : SLAMState) :
  hasMoreImages f = false -> run f s = (false, s, []).
Proof. intros Hmore. unfold run. rewrite Hmore. reflexivity. Qed.

Lemma fusion_executed_gate (f : Frame) (s : SLAMState) :
  fusion_executed f s = hasMoreImages f && gate_open f s.
Proof.
  destruct (hasMoreImages f) eqn:Hmore.
  - apply fusion_executed_eq, Hmore.
  - unfold fusion_executed. rewrite (run_no_images f s Hmore). reflexivity.
Qed.

Lemma fusedFramesCount_run (f : Frame) (s : SLAMState) :
  m_fusedFramesCount (state_of (run f s)) =
  if fusion_executed f s then size_t_incr (m_fusedFramesCount s)
  else m_fusedFramesCount s.
Proof.
  rewrite fusion_executed_gate.
  destruct (hasMoreImages f) eqn:Hmore.
  - rewrite (run_state_eq f s Hmore). cbv zeta. simpl.
    destruct (gate_inputs_at_decision f s) as (_ & Hcount & _).
    destruct (subengineHasMoreImages f), (gate_open f s); simpl;
      try destruct (TrackingResult_eqb _ _); simpl; congruence.
  - rewrite (run_no_images f s Hmore). reflexivity.
Qed.

Lemma fusionEnabled_run (f : Frame) (s : SLAMState) :
  m_fusionEnabled (state_of (run f s)) =
  m_fusionEnabled s && (negb (hasMoreImages f) || subengineHasMoreImages f).
Proof.
  destruct (hasMoreImages f) eqn:Hmore.
  - rewrite (run_state_eq f s Hmore). cbv zeta. simpl.
    destruct (gate_inputs_at_decision f s) as (Hen & _).
    destruct (subengineHasMoreImages f), (gate_open f s); simpl;
      try destruct (TrackingResult_eqb _ _); simpl;
      rewrite ?andb_true_r, ?andb_false_r; congruence.
  - rewrite (run_no_images f s Hmore). simpl. rewrite andb_true_r. reflexivity.
Qed.

Lemma keyframeDelay_run (f : Frame) (s : SLAMState) :
  hasMoreImages f = true ->
  m_keyframeDelay (state_of (run f s)) =
  m_keyframeDelay
    (state_of (determine_tracking_quality f (state_of (track_camera f s)))).
Proof.
  intros Hmore. rewrite (run_state_eq f s Hmore). cbv zeta.
  destruct (subengineHasMoreImages f), (gate_open f s); simpl;
    try destruct (TrackingResult_eqb _ _); reflexivity.
Qed.

Lemma poseDatabase_run (f : Frame) (s : SLAMState) :
  hasMoreImages f = true ->
  m_poseDatabase (state_of (run f s)) =
  m_poseDatabase
    (state_of (determine_tracking_quality f (state_of (track_camera f s)))).
Proof.
  intros Hmore. rewrite (run_state_eq f s Hmore). cbv zeta.
  destruct (subengineHasMoreImages f), (gate_open f s); simpl;
    try destruct (TrackingResult_eqb _ _); reflexivity.
Qed.

(** What the failure-mode switch starts from: the state the tracking step
    leaves differs from the state on entry in the pose and the verdict only. *)
Lemma tracked_state (f : Frame) (s : SLAMState) :
  let t := state_of (track_camera f s) in
  trackerResult t = raw_verdict f s /\
  m_keyframeDelay t = m_keyframeDelay s /\
  m_poseDatabase t = m_poseDatabase s /\
  behaviourOnFailure t = behaviourOnFailure s.
Proof.
  simpl. rewrite raw_verdict_eq.
  destruct (track_camera_frame f s) as ((_ & _ & _ & _ & Hmode) & Hd & Hdb & _).
  auto.
Qed.

(** Calls that only the failure-mode switch makes. *)
Definition policy_call (e : Event) : bool :=
  match e with
  | EvUpdateHostFromDevice | EvRelocProcessFrame _
  | EvStorePose _ _ | EvRetrievePose _ => true
  | _ => false
  end.

Lemma existsb_policy_call (P : Event -> bool) (f : Frame) (s : SLAMState) :
  (forall e, policy_call e = false -> P e = false) ->
  hasMoreImages f = true ->
  existsb P (events (run f s)) =
  existsb P (events (determine_tracking_quality f (state_of (track_camera f s)))).
Proof.
  intros HP Hmore. rewrite (run_phases f s Hmore). cbv zeta.
  change (events (?a, ?b, ?l)) with l.
  rewrite !existsb_app, apply_outcome_eq.
  assert (Ht : existsb P (events (track_camera f s)) = false).
  { rewrite track_camera_eq. destruct (0 <? m_fusedFramesCount s)%N; simpl;
      rewrite ?HP; reflexivity. }
  assert (Hg : forall r s', existsb P (events (decide_runFusion f r s')) = false).
  { intros r s'. unfold decide_runFusion, fallible_tracker_lost. unfold_monad.
    destruct r; run_cases; rewrite ?HP; reflexivity. }
  rewrite Ht, Hg. simpl. rewrite !HP by reflexivity. simpl.
  destruct (value _); simpl; rewrite ?HP by reflexivity;
    [| destruct (TrackingResult_eqb _ _); simpl; rewrite ?HP by reflexivity];
    rewrite ?orb_false_r; reflexivity.
Qed.

Definition is_relocalise (mode : FailureMode) : bool :=
  match mode with FAILUREMODE_RELOCALISE => true | _ => false end.

Lemma considers_keyframe_eq (f : Frame) (s : SLAMState) :
  considers_keyframe f s =
  hasMoreImages f && is_relocalise (behaviourOnFailure s)
  && considerKeyframe_flag (raw_verdict f s) s.
Proof.
  unfold considers_keyframe.
  destruct (hasMoreImages f) eqn:Hmore;
    [| rewrite (run_no_images f s Hmore); reflexivity].
  rewrite existsb_policy_call by (try assumption; intros []; simpl; congruence).
  destruct (tracked_state f s) as (Hr & Hd & Hdb & Hm).
  rewrite determine_tracking_quality_eq, Hm.
  destruct (behaviourOnFailure s); simpl; try reflexivity.
  rewrite relocalise_eq. cbv zeta. unfold considerKeyframe_flag.
  rewrite Hr, Hd.
  destruct (TrackingResult_eqb (raw_verdict f s) TRACKING_GOOD
            && (m_keyframeDelay s =? 0)%N) eqn:Hflag;
    repeat (case_on_match; simpl); reflexivity.
Qed.

Lemma recovery_triggered_eq (f : Frame) (s : SLAMState) :
  recovery_triggered f s =
  hasMoreImages f && is_relocalise (behaviourOnFailure s)
  && TrackingResult_eqb (raw_verdict f s) TRACKING_FAILED
  && negb (0 <=? (ProcessFrame f false).1)%Z
  && negb ((ProcessFrame f false).2 =? -1)%Z.
Proof.
  unfold recovery_triggered.
  destruct (hasMoreImages f) eqn:Hmore;
    [| rewrite (run_no_images f s Hmore); reflexivity].
  rewrite existsb_policy_call by (try assumption; intros []; simpl; congruence).
  destruct (tracked_state f s) as (Hr & Hd & Hdb & Hm).
  rewrite determine_tracking_quality_eq, Hm.
  destruct (behaviourOnFailure s); simpl; try reflexivity.
  rewrite relocalise_eq. cbv zeta. unfold considerKeyframe_flag.
  rewrite Hr.
  destruct (raw_verdict f s); simpl;
    repeat (case_on_match; simpl); reflexivity.
Qed.

(** Modelled from the spec: the relocaliser belongs to RelocLib, outside
    this repository.  [Relocaliser.processFrame(depth, considerKeyframe)]
    returns a newly assigned keyframe id only when it accepted the frame as
    a new keyframe, and it only accepts frames it was asked to consider. *)
Definition harvests_on_request (f : Frame) : bool :=
  ((ProcessFrame f false).1 <? 0)%Z.

(** A frame was processed and the verdict after its tracking step is GOOD. *)
Definition good_frame (f : Frame) (s : SLAMState) : bool :=
  hasMoreImages f && TrackingResult_eqb (raw_verdict f s) TRACKING_GOOD.

(** The keyframe delay after a call, from the state on entry. *)
Lemma keyframeDelay_step (f : Frame) (s : SLAMState) :
  m_keyframeDelay (state_of (run f s)) =
  if recovery_triggered f s then 10%N
  else if good_frame f s && is_relocalise (behaviourOnFailure s)
          && negb (m_keyframeDelay s =? 0)%N
       then N.pred (m_keyframeDelay s)
       else m_keyframeDelay s.
Proof.
  rewrite recovery_triggered_eq. unfold good_frame.
  destruct (hasMoreImages f) eqn:Hmore;
    [| rewrite (run_no_images f s Hmore); reflexivity].
  rewrite (keyframeDelay_run f s Hmore).
  destruct (tracked_state f s) as (Hr & Hd & Hdb & Hm).
  rewrite determine_tracking_quality_eq, Hm.
  destruct (behaviourOnFailure s); simpl;
    rewrite ?andb_false_r; try (simpl; congruence).
  rewrite relocalise_eq. cbv zeta.
  unfold considerKeyframe_flag, after_keyframe_decision. rewrite Hr, Hd.
  destruct (raw_verdict f s); simpl;
    destruct (m_keyframeDelay s =? 0)%N eqn:Hz; simpl;
    repeat (case_on_match; simpl); try reflexivity; try congruence.
  all: destruct (TrackingResult_eqb _ _); simpl; congruence.
Qed.

(** ** Sessions: calls of [run] interleaved with [set_fusion_enabled] *)

Inductive Call : Type :=
| CallRun (f : Frame)
| CallSetFusionEnabled (fusionEnabled : bool).

Definition call (c : Call) (s : SLAMState) : SLAMState :=
  match c with
  | CallRun f => state_of (run f s)
  | CallSetFusionEnabled b => set_fusion_enabled b s
  end.

Fixpoint exec (cs : list Call) (s : SLAMState) : SLAMState :=
  match cs with
  | [] => s
  | c :: cs' => exec cs' (call c s)
  end.

Definition is_enable (c : Call) : bool :=
  match c with CallSetFusionEnabled true => true | _ => false end.

(** The number of calls of a session on which the dense mapper fused. *)
Fixpoint fused_calls (cs : list Call) (s : SLAMState) : nat :=
  match cs with
  | [] => 0
  | CallRun f :: cs' =>
      (if fusion_executed f s then 1 else 0) + fused_calls cs' (state_of (run f s))
  | CallSetFusionEnabled b :: cs' => fused_calls cs' (set_fusion_enabled b s)
  end.

(** For each call of [run] of a session, in order: was a frame processed
    with verdict GOOD after its tracking step? *)
Fixpoint good_flags (cs : list Call) (s : SLAMState) : list bool :=
  match cs with
  | [] => []
  | CallRun f :: cs' => good_frame f s :: good_flags cs' (state_of (run f s))
  | CallSetFusionEnabled b :: cs' => good_flags cs' (set_fusion_enabled b s)
  end.

Definition good_frames (cs : list Call) (s : SLAMState) : nat :=
  count_occ bool_dec (good_flags cs s) true.

(** The longest run of consecutive [true]s, [current] being the length of
    the run that is under way. *)
Fixpoint longest_streak (flags : list bool) (current : nat) : nat :=
  match flags with
  | [] => current
  | true :: flags' => longest_streak flags' (S current)
  | false :: flags' => Nat.max current (longest_streak flags' 0)
  end.

(** The count over a session, modulo the range of [size_t]. *)
Lemma fusedFramesCount_exec (cs : list Call) (s : SLAMState) :
  (m_fusedFramesCount s <= SIZE_MAX)%N ->
  m_fusedFramesCount (exec cs s) =
  ((m_fusedFramesCount s + N.of_nat (fused_calls cs s))
   mod (SIZE_MAX + 1))%N.
Proof.
  revert s. induction cs as [| [f | b] cs IH]; intros s Hs; simpl.
  - rewrite N.add_0_r. symmetry. apply N.mod_small. lia.
  - pose proof (fusedFramesCount_run f s) as Hstep.
    destruct (fusion_executed f s).
    + rewrite IH by (rewrite Hstep; apply size_t_incr_range).
      rewrite Hstep. unfold size_t_incr.
      rewrite N.Div0.add_mod_idemp_l. f_equal. lia.
    + rewrite IH by (rewrite Hstep; exact Hs). rewrite Hstep. reflexivity.
  - apply (IH (set_fusion_enabled b s)). exact Hs.
Qed.

(** The count over a session that stays within the range of [size_t]. *)
Lemma fusedFramesCount_exec_below (cs : list Call) (s : SLAMState) :
  (m_fusedFramesCount s + N.of_nat (fused_calls cs s) <= SIZE_MAX)%N ->
  m_fusedFramesCount (exec cs s) =
  (m_fusedFramesCount s + N.of_nat (fused_calls cs s))%N.
Proof.
  intros Hb. rewrite fusedFramesCount_exec by lia. apply N.mod_small. lia.
Qed.

Lemma fusion_stays_disabled (cs : list Call) (s : SLAMState) :
  forallb (fun c => negb (is_enable c)) cs = true ->
  m_fusionEnabled s = false ->
  m_fusionEnabled (exec cs s) = false.
Proof.
  revert s. induction cs as [| [f | b] cs IH]; intros s Hcs Hs; simpl in *.
  - exact Hs.
  - apply IH; [exact Hcs |]. rewrite fusionEnabled_run, Hs. reflexivity.
  - apply andb_prop in Hcs as [Hb Hcs]. apply IH; [exact Hcs |].
    destruct b; [discriminate | reflexivity].
Qed.

Lemma cooldown_invariant (cs : list Call) (s : SLAMState) (k : N) :
  (k <= 10)%N ->
  (k <= m_keyframeDelay s)%N ->
  (k <= m_keyframeDelay (exec cs s) + N.of_nat (good_frames cs s))%N.
Proof.
  unfold good_frames. revert s k.
  induction cs as [| [f | b] cs IH]; intros s k Hk Hs; simpl.
  - lia.
  - pose proof (keyframeDelay_step f s) as Hstep.
    destruct (recovery_triggered f s).
    + specialize (IH (state_of (run f s)) k Hk). rewrite Hstep in IH.
      specialize (IH Hk). destruct (bool_dec (good_frame f s) true); simpl; lia.
    + destruct (good_frame f s) eqn:Hgood; simpl in Hstep.
      * destruct (is_relocalise (behaviourOnFailure s)
                  && negb (m_keyframeDelay s =? 0)%N); simpl in Hstep.
        -- specialize (IH (state_of (run f s)) (N.pred k)).
           rewrite Hstep in IH. simpl.
           assert (N.pred k <= 10)%N by lia.
           assert (N.pred k <= N.pred (m_keyframeDelay s))%N by lia.
           specialize (IH ltac:(assumption) ltac:(assumption)). lia.
        -- specialize (IH (state_of (run f s)) k Hk). rewrite Hstep in IH.
           specialize (IH Hs). simpl. lia.
      * specialize (IH (state_of (run f s)) k Hk). rewrite Hstep in IH.
        specialize (IH Hs). simpl. exact IH.
  - apply IH; assumption.
Qed.

(** C1. Fusion gate: on a call of [run] that processes a frame, the dense
    mapper is asked to fuse if and only if fusion is enabled, the effective
    verdict is not FAILED, the effective verdict is not POOR unless fewer
    than [m_initialFramesToFuse] frames have been fused, and the fallible
    tracker, when there is one, does not report lost tracking. *)
Theorem fusion_gate (f : Frame) (s : SLAMState) :
  hasMoreImages f = true ->
  (fusion_executed f s = true <->
   m_fusionEnabled s = true /\
   effective_verdict f s <> TRACKING_FAILED /\
   (effective_verdict f s <> TRACKING_POOR \/
    (m_fusedFramesCount s < m_initialFramesToFuse s)%N) /\
   (m_fallibleTracker s = true -> lost_tracking f = false)).
Proof.
  intros Hmore. rewrite (fusion_executed_eq f s Hmore). unfold gate_open.
  destruct (N.leb_spec (m_initialFramesToFuse s) (m_fusedFramesCount s));
    destruct (effective_verdict f s), (m_fusionEnabled s),
      (m_fallibleTracker s), (lost_tracking f); simpl;
    intuition (try congruence; try lia).
Qed.


(** C8. When the image source has no more images, [run] returns false at
    once: the session state is left exactly as it was (so the fused-frame
    count, the pose, the keyframe delay and the fusion flag are unchanged)
    and no collaborator is called. *)
Theorem run_without_images (f : Frame) (s : SLAMState) :
  hasMoreImages f = false ->
  value (run f s) = false /\
  state_of (run f s) = s /\
  events (run f s) = [] /\
  m_fusedFramesCount (state_of (run f s)) = m_fusedFramesCount s /\
  pose_d (state_of (run f s)) = pose_d s /\
  m_keyframeDelay (state_of (run f s)) = m_keyframeDelay s /\
  get_fusion_enabled (state_of (run f s)) = get_fusion_enabled s.
Proof.
  intros Hmore. rewrite (run_no_images f s Hmore). repeat split.
Qed.

(** C2. Rollback law: when [run] processes a frame and the effective verdict
    is FAILED, nothing is fused and the pose left in the tracking state is
    the pose found on entry, whatever the tracker or the relocalisation
    recovery did to it in between. *)
Theorem rollback_law (f : Frame) (s : SLAMState) :
  hasMoreImages f = true ->
  effective_verdict f s = TRACKING_FAILED ->
  value (run f s) = true /\
  fusion_executed f s = false /\
  pose_d (state_of (run f s)) = pose_d s.
Proof.
  intros Hmore Hfailed.
  assert (Hgate : gate_open f s = false).
  { unfold gate_open. rewrite Hfailed. simpl. apply andb_false_r. }
  split; [rewrite run_value; exact Hmore |].
  split; [rewrite fusion_executed_gate, Hgate; apply andb_false_r |].
  rewrite (run_state_eq f s Hmore). cbv zeta. rewrite Hgate, Hfailed. simpl.
  destruct (subengineHasMoreImages f); reflexivity.
Qed.

(** C3. Relocalisation recovery: under the relocalise failure mode, when
    the verdict after the tracking step is FAILED, the relocaliser (asked
    without keyframe candidacy) returns no new keyframe id and names a
    nearest neighbour, [run] fetches the pose stored under that neighbour,
    makes it the current pose, updates the visible list with the reset flag
    set, prepares and reruns the tracker from that pose, in this order; the
    verdict of the rerun is the effective verdict and the keyframe delay is
    10 when [run] returns. *)
Theorem relocalisation_recovery_order (f : Frame) (s : SLAMState) :
  hasMoreImages f = true ->
  behaviourOnFailure s = FAILUREMODE_RELOCALISE ->
  raw_verdict f s = TRACKING_FAILED ->
  ((ProcessFrame f false).1 < 0)%Z ->
  (ProcessFrame f false).2 <> (-1)%Z ->
  let nearestNeighbour := (ProcessFrame f false).2 in
  let keyframePose := m_poseDatabase s !!! nearestNeighbour in
  (exists rest,
     events (run f s) =
     [EvGetImages; EvUpdateView] ++ events (track_camera f s) ++
     [EvUpdateHostFromDevice; EvRelocProcessFrame false;
      EvRetrievePose nearestNeighbour;
      EvUpdateVisibleList keyframePose true;
      EvPrepare keyframePose;
      EvTrack keyframePose] ++ rest) /\
  effective_verdict f s = (Retrack f keyframePose).2 /\
  m_keyframeDelay (state_of (run f s)) = 10%N.
Proof.
  intros Hmore Hmode Hraw Hid Hnn. cbv zeta.
  destruct (tracked_state f s) as (Hr & Hd & Hdb & Hm).
  assert (Hq : determine_tracking_quality f (state_of (track_camera f s)) =
    ((Retrack f (m_poseDatabase s !!! (ProcessFrame f false).2)).2,
     with_keyframeDelay 10
       (with_trackerResult
          (Retrack f (m_poseDatabase s !!! (ProcessFrame f false).2)).2
          (with_pose_d
             (Retrack f (m_poseDatabase s !!! (ProcessFrame f false).2)).1
             (state_of (track_camera f s)))),
     [EvUpdateHostFromDevice; EvRelocProcessFrame false;
      EvRetrievePose (ProcessFrame f false).2;
      EvUpdateVisibleList (m_poseDatabase s !!! (ProcessFrame f false).2) true;
      EvPrepare (m_poseDatabase s !!! (ProcessFrame f false).2);
      EvTrack (m_poseDatabase s !!! (ProcessFrame f false).2)])).
  { rewrite determine_tracking_quality_eq, Hm, Hmode, relocalise_eq. cbv zeta.
    unfold considerKeyframe_flag. rewrite Hr, Hraw, Hdb. simpl.
    destruct (Z.leb_spec 0 (ProcessFrame f false).1) as [Hle | _]; [lia |].
    destruct (Z.eqb_spec (ProcessFrame f false).2 (-1)) as [Heq | _];
      [contradiction | reflexivity]. }
  split; [| split].
  - rewrite (run_phases f s Hmore). cbv zeta. rewrite Hq.
    change (events (?a, ?b, ?l)) with l.
    eexists. reflexivity.
  - rewrite effective_verdict_eq, Hq. reflexivity.
  - rewrite (keyframeDelay_run f s Hmore), Hq. reflexivity.
Qed.


(** C5, as the code has it. A call of [run] that finds the current
    sub-engine out of images leaves fusion disabled, and no later call of
    [run] enables it again: it stays disabled for as long as nobody calls
    [set_fusion_enabled(true)].  Such a call does enable it again. *)
Theorem fusion_disabled_until_reenabled (f : Frame) (s : SLAMState)
    (cs : list Call) :
  hasMoreImages f = true ->
  subengineHasMoreImages f = false ->
  get_fusion_enabled (state_of (run f s)) = false /\
  (forallb (fun c => negb (is_enable c)) cs = true ->
   get_fusion_enabled (exec cs (state_of (run f s))) = false) /\
  get_fusion_enabled
    (set_fusion_enabled true (exec cs (state_of (run f s)))) = true.
Proof.
  intros Hmore Hsub. unfold get_fusion_enabled.
  assert (Hoff : m_fusionEnabled (state_of (run f s)) = false).
  { rewrite fusionEnabled_run, Hmore, Hsub. apply andb_false_r. }
  split; [exact Hoff |]. split; [| reflexivity].
  intros Hcs. apply fusion_stays_disabled; assumption.
Qed.

(** C10. The fusion decision of a call reads the flag as it was on entry:
    on the frame on which the current sub-engine runs out of images the
    dense mapper still fuses whenever the gate is open, the flag is false
    once the call has returned, and the next call of [run] does not fuse. *)
Theorem exhaustion_disables_from_next_call (f f' : Frame) (s : SLAMState) :
  hasMoreImages f = true ->
  subengineHasMoreImages f = false ->
  fusion_executed f s = gate_open f s /\
  (m_fusionEnabled s = true ->
   effective_verdict f s = TRACKING_GOOD ->
   (m_fallibleTracker s = true -> lost_tracking f = false) ->
   fusion_executed f s = true /\
   m_fusedFramesCount (state_of (run f s)) =
     size_t_incr (m_fusedFramesCount s)) /\
  get_fusion_enabled (state_of (run f s)) = false /\
  fusion_executed f' (state_of (run f s)) = false.
Proof.
  intros Hmore Hsub.
  assert (Hoff : m_fusionEnabled (state_of (run f s)) = false).
  { rewrite fusionEnabled_run, Hmore, Hsub. apply andb_false_r. }
  split; [apply fusion_executed_eq, Hmore |].
  split; [| split; [exact Hoff |]].
  - intros Hen Hgood Hlost.
    assert (Hfused : fusion_executed f s = true).
    { rewrite (fusion_executed_eq f s Hmore). unfold gate_open.
      rewrite Hen, Hgood. simpl.
      destruct (m_fallibleTracker s); [| reflexivity].
      rewrite Hlost; reflexivity. }
    split; [exact Hfused |]. rewrite fusedFramesCount_run, Hfused. reflexivity.
  - rewrite fusion_executed_gate. unfold gate_open. rewrite Hoff.
    apply andb_false_r.
Qed.

(** C4, as the code has it. After a call of [run] on which the
    relocalisation recovery ran, the keyframe delay is exactly 10, and the
    relocaliser is not asked to consider a keyframe on a later call unless
    at least 10 frames with verdict GOOD after their tracking step have
    been processed since; these frames need not be consecutive. *)
Theorem keyframe_cooldown (f f' : Frame) (s : SLAMState) (cs : list Call) :
  recovery_triggered f s = true ->
  behaviourOnFailure s = FAILUREMODE_RELOCALISE /\
  m_keyframeDelay (state_of (run f s)) = 10%N /\
  (considers_keyframe f' (exec cs (state_of (run f s))) = true ->
   10 <= good_frames cs (state_of (run f s))).
Proof.
  intros Hrec.
  assert (Hdelay : m_keyframeDelay (state_of (run f s)) = 10%N).
  { rewrite keyframeDelay_step, Hrec. reflexivity. }
  split; [| split; [exact Hdelay |]].
  - rewrite recovery_triggered_eq in Hrec.
    destruct (behaviourOnFailure s); [reflexivity | |];
      rewrite andb_false_r in Hrec; discriminate.
  - intros Hflag. rewrite considers_keyframe_eq in Hflag.
    unfold considerKeyframe_flag in Hflag.
    apply andb_prop in Hflag as [_ Hflag].
    apply andb_prop in Hflag as [_ Hzero].
    apply N.eqb_eq in Hzero.
    pose proof (cooldown_invariant cs (state_of (run f s)) 10) as Hinv.
    rewrite Hdelay, Hzero in Hinv. lia.
Qed.

(** C7. Under the relocalise failure mode: the relocaliser is asked to
    consider a keyframe only when the verdict after the tracking step is
    GOOD and the keyframe delay is 0; whenever it returns a keyframe id,
    the pose of the tracking state is in the pose database under that id
    when [run] returns; and, for a relocaliser that only adds the keyframes
    it was asked to consider, a keyframe id is returned only on frames whose
    effective verdict is GOOD, the stored pose being the pose [run] leaves. *)
Theorem keyframe_harvest (f : Frame) (s : SLAMState) :
  hasMoreImages f = true ->
  behaviourOnFailure s = FAILUREMODE_RELOCALISE ->
  let flag := considers_keyframe f s in
  let keyframeID := (ProcessFrame f flag).1 in
  In (EvRelocProcessFrame flag) (events (run f s)) /\
  (flag = true ->
   raw_verdict f s = TRACKING_GOOD /\ m_keyframeDelay s = 0%N) /\
  ((0 <= keyframeID)%Z ->
   m_poseDatabase (state_of (run f s)) !! keyframeID =
     Some (pose_d (state_of (track_camera f s)))) /\
  (harvests_on_request f = true ->
   (0 <= keyframeID)%Z ->
   effective_verdict f s = TRACKING_GOOD /\
   m_poseDatabase (state_of (run f s)) !! keyframeID =
     Some (pose_d (state_of (run f s)))).
Proof.
  intros Hmore Hmode. cbv zeta.
  destruct (tracked_state f s) as (Hr & Hd & Hdb & Hm).
  assert (Hflag : considers_keyframe f s =
                  considerKeyframe_flag (trackerResult (state_of (track_camera f s)))
                    (state_of (track_camera f s))).
  { rewrite considers_keyframe_eq, Hmore, Hmode. simpl.
    unfold considerKeyframe_flag. rewrite Hr, Hd. reflexivity. }
  pose proof (relocalise_eq f (trackerResult (state_of (track_camera f s)))
                (state_of (track_camera f s))) as Hq.
  cbv zeta in Hq. rewrite <- Hflag in Hq.
  assert (Hdq : determine_tracking_quality f (state_of (track_camera f s)) =
                relocalise f (trackerResult (state_of (track_camera f s)))
                  (state_of (track_camera f s))).
  { rewrite determine_tracking_quality_eq, Hm, Hmode. reflexivity. }
  split; [| split; [| split]].
  - rewrite (run_phases f s Hmore). cbv zeta. rewrite Hdq, Hq.
    change (events (?a, ?b, ?l)) with l.
    apply in_or_app. right. apply in_or_app. right. apply in_or_app. left.
    repeat (case_on_match; simpl); auto.
  - intros Htrue. rewrite considers_keyframe_eq in Htrue.
    unfold considerKeyframe_flag in Htrue.
    apply andb_prop in Htrue as [_ Htrue].
    apply andb_prop in Htrue as [Hgood Hzero].
    apply TrackingResult_eqb_eq in Hgood. apply N.eqb_eq in Hzero. auto.
  - intros Hid. rewrite (poseDatabase_run f s Hmore), Hdq, Hq.
    destruct (Z.leb_spec 0 (ProcessFrame f (considers_keyframe f s)).1);
      [| lia].
    simpl. apply lookup_insert_eq.
  - intros Hcontract Hid.
    assert (Htrue : considers_keyframe f s = true).
    { unfold harvests_on_request in Hcontract. apply Z.ltb_lt in Hcontract.
      destruct (considers_keyframe f s); [reflexivity | lia]. }
    assert (Heff : effective_verdict f s = TRACKING_GOOD).
    { rewrite effective_verdict_eq, Hdq, Hq.
      destruct (Z.leb_spec 0 (ProcessFrame f (considers_keyframe f s)).1);
        [| lia].
      simpl. rewrite Hflag in Htrue. unfold considerKeyframe_flag in Htrue.
      apply andb_prop in Htrue as [Hgood _].
      apply TrackingResult_eqb_eq in Hgood. exact Hgood. }
    split; [exact Heff |].
    rewrite (run_state_eq f s Hmore). cbv zeta. rewrite Heff, Hdq, Hq.
    destruct (Z.leb_spec 0 (ProcessFrame f (considers_keyframe f s)).1);
      [| lia].
    assert (Hpose : pose_d (after_keyframe_decision
                      (trackerResult (state_of (track_camera f s)))
                      (state_of (track_camera f s))) =
                    pose_d (state_of (track_camera f s))).
    { unfold after_keyframe_decision. case_on_match; reflexivity. }
    destruct (subengineHasMoreImages f), (gate_open f s); simpl;
      rewrite Hpose; apply lookup_insert_eq.
Qed.

(** ** Further observations of one call *)

(** The state the failure-mode switch leaves: what the fusion decision and
    the three-way outcome of lines 192-207 start from. *)
Definition resolved_state (f : Frame) (s : SLAMState) : SLAMState :=
  state_of (determine_tracking_quality f (state_of (track_camera f s))).

Definition is_track (e : Event) : bool :=
  match e with EvTrack _ => true | _ => false end.

Definition is_lost_query (e : Event) : bool :=
  match e with EvLostTracking => true | _ => false end.

Definition is_relocaliser_call (e : Event) : bool :=
  match e with EvRelocProcessFrame _ => true | _ => false end.

(** The call of line 201: [UpdateVisibleList] without a reset. *)
Definition is_visibility_update (e : Event) : bool :=
  match e with EvUpdateVisibleList _ false => true | _ => false end.

Definition visibility_updated (f : Frame) (s : SLAMState) : bool :=
  existsb is_visibility_update (events (run f s)).

(** The first two operands of the disjunction of lines 185-187 are false,
    so that the third one is evaluated. *)
Definition verdict_allows_fusion (f : Frame) (s : SLAMState) : bool :=
  negb (TrackingResult_eqb (effective_verdict f s) TRACKING_FAILED)
  && negb (TrackingResult_eqb (effective_verdict f s) TRACKING_POOR
           && (m_initialFramesToFuse s <=? m_fusedFramesCount s)%N).

Lemma decide_runFusion_events (f : Frame) (r : TrackingResult) (s : SLAMState) :
  events (decide_runFusion f r s) =
  if m_fallibleTracker s
     && (negb (TrackingResult_eqb r TRACKING_FAILED)
         && negb (TrackingResult_eqb r TRACKING_POOR
                  && (m_initialFramesToFuse s <=? m_fusedFramesCount s)%N))
  then [EvLostTracking] else [].
Proof.
  unfold decide_runFusion, fallible_tracker_lost. unfold_monad. simpl.
  destruct r; simpl;
    destruct (m_initialFramesToFuse s <=? m_fusedFramesCount s)%N; simpl;
    destruct (m_fallibleTracker s); simpl;
    try destruct (lost_tracking f); reflexivity.
Qed.

Lemma pose_run (f : Frame) (s : SLAMState) :
  hasMoreImages f = true ->
  pose_d (state_of (run f s)) =
  if TrackingResult_eqb (effective_verdict f s) TRACKING_FAILED
  then pose_d s else pose_d (resolved_state f s).
Proof.
  intros Hmore. rewrite (run_state_eq f s Hmore). cbv zeta.
  unfold resolved_state.
  assert (Hgate : TrackingResult_eqb (effective_verdict f s) TRACKING_FAILED = true ->
                  gate_open f s = false).
  { intros H. unfold gate_open. rewrite H. apply andb_false_r. }
  destruct (TrackingResult_eqb (effective_verdict f s) TRACKING_FAILED) eqn:Hf.
  - rewrite (Hgate eq_refl). destruct (subengineHasMoreImages f); reflexivity.
  - destruct (subengineHasMoreImages f), (gate_open f s); reflexivity.
Qed.

Lemma trackerResult_run (f : Frame) (s : SLAMState) :
  hasMoreImages f = true ->
  trackerResult (state_of (run f s)) = trackerResult (resolved_state f s).
Proof.
  intros Hmore. rewrite (run_state_eq f s Hmore). cbv zeta.
  unfold resolved_state.
  destruct (subengineHasMoreImages f), (gate_open f s); simpl;
    try destruct (TrackingResult_eqb _ _); reflexivity.
Qed.

(** The calls of a call of [run] that finds a frame, from first to last. *)
Lemma run_events_eq (f : Frame) (s : SLAMState) :
  hasMoreImages f = true ->
  events (run f s) =
  [EvGetImages; EvUpdateView]
    ++ events (track_camera f s)
    ++ events (determine_tracking_quality f (state_of (track_camera f s)))
    ++ (if m_fallibleTracker s && verdict_allows_fusion f s
        then [EvLostTracking] else [])
    ++ (if gate_open f s then [EvFuse (pose_d (resolved_state f s))]
        else if TrackingResult_eqb (effective_verdict f s) TRACKING_FAILED
             then []
             else [EvUpdateVisibleList (pose_d (resolved_state f s)) false])
    ++ [EvPrepare (pose_d (state_of (run f s)))].
Proof.
  intros Hmore. rewrite (pose_run f s Hmore).
  rewrite (run_phases f s Hmore). cbv zeta.
  rewrite runFusion_eq, apply_outcome_eq, decide_runFusion_events.
  rewrite <- effective_verdict_eq. fold (resolved_state f s).
  destruct (gate_inputs_at_decision f s) as (_ & Hc & Hi & Hft & _).
  fold (resolved_state f s) in Hc, Hi, Hft. rewrite Hc, Hi, Hft.
  fold (verdict_allows_fusion f s).
  change (events (?a, ?b, ?l)) with l.
  assert (Hgate : TrackingResult_eqb (effective_verdict f s) TRACKING_FAILED = true ->
                  gate_open f s = false).
  { intros H. unfold gate_open. rewrite H. apply andb_false_r. }
  destruct (TrackingResult_eqb (effective_verdict f s) TRACKING_FAILED) eqn:Hf.
  - rewrite (Hgate eq_refl). reflexivity.
  - destruct (gate_open f s); reflexivity.
Qed.

(** What the failure-mode switch may call: the relocaliser and the pose
    database and, during a recovery, the visible-list reset and the rerun
    of the tracker. *)
Definition switch_call (e : Event) : bool :=
  match e with
  | EvUpdateHostFromDevice | EvRelocProcessFrame _ | EvStorePose _ _
  | EvRetrievePose _ | EvUpdateVisibleList _ true | EvPrepare _
  | EvTrack _ => true
  | _ => false
  end.

Lemma switch_calls_only (f : Frame) (s : SLAMState) :
  forallb switch_call (events (determine_tracking_quality f s)) = true.
Proof.
  rewrite determine_tracking_quality_eq.
  destruct (behaviourOnFailure s); try reflexivity.
  rewrite relocalise_eq. cbv zeta.
  repeat (case_on_match; simpl); reflexivity.
Qed.

Lemma existsb_outside_switch (P : Event -> bool) (f : Frame) (s : SLAMState) :
  (forall e, switch_call e = true -> P e = false) ->
  existsb P (events (determine_tracking_quality f s)) = false.
Proof.
  intros HP. pose proof (switch_calls_only f s) as Hall.
  induction (events (determine_tracking_quality f s)) as [| e l IH];
    [reflexivity |].
  simpl in *. apply andb_prop in Hall as [He Hl].
  rewrite (HP e He), (IH Hl). reflexivity.
Qed.

(** X1. Outside the relocalise failure mode a call of [run] never calls the
    relocaliser or the pose database, and leaves the keyframe delay and the
    pose database as they were. *)
Theorem relocalisation_idle_in_other_modes (f : Frame) (s : SLAMState) :
  behaviourOnFailure s <> FAILUREMODE_RELOCALISE ->
  existsb policy_call (events (run f s)) = false /\
  m_keyframeDelay (state_of (run f s)) = m_keyframeDelay s /\
  m_poseDatabase (state_of (run f s)) = m_poseDatabase s.
Proof.
  intros Hmode.
  destruct (hasMoreImages f) eqn:Hmore;
    [| rewrite (run_no_images f s Hmore); repeat split; reflexivity].
  destruct (tracked_state f s) as (_ & Hd & Hdb & Hm).
  assert (Hq : determine_tracking_quality f (state_of (track_camera f s)) =
               (effective_verdict f s, state_of (track_camera f s), [])).
  { rewrite effective_verdict_eq, determine_tracking_quality_eq, Hm.
    destruct (behaviourOnFailure s); [contradiction | reflexivity | reflexivity]. }
  split; [| split].
  - rewrite (existsb_policy_call policy_call f s) by auto. rewrite Hq.
    reflexivity.
  - rewrite (keyframeDelay_run f s Hmore), Hq. exact Hd.
  - rewrite (poseDatabase_run f s Hmore), Hq. exact Hdb.
Qed.

(** X2. Under the stop-integration failure mode a FAILED verdict is treated
    as POOR: the effective verdict is never FAILED, so the pose the tracker
    left is kept, and while fewer than [m_initialFramesToFuse] frames have
    been fused the frame is fused whatever the tracker reported. *)
Theorem stop_integration_keeps_going (f : Frame) (s : SLAMState) :
  hasMoreImages f = true ->
  behaviourOnFailure s = FAILUREMODE_STOP_INTEGRATION ->
  effective_verdict f s =
    (if TrackingResult_eqb (raw_verdict f s) TRACKING_FAILED
     then TRACKING_POOR else raw_verdict f s) /\
  effective_verdict f s <> TRACKING_FAILED /\
  pose_d (state_of (run f s)) = pose_d (state_of (track_camera f s)) /\
  (m_fusionEnabled s = true ->
   (m_fusedFramesCount s < m_initialFramesToFuse s)%N ->
   (m_fallibleTracker s = true -> lost_tracking f = false) ->
   fusion_executed f s = true).
Proof.
  intros Hmore Hmode.
  destruct (tracked_state f s) as (Hr & _ & _ & Hm).
  assert (Hq : determine_tracking_quality f (state_of (track_camera f s)) =
               (if TrackingResult_eqb (raw_verdict f s) TRACKING_FAILED
                then TRACKING_POOR else raw_verdict f s,
                state_of (track_camera f s), [])).
  { rewrite determine_tracking_quality_eq, Hm, Hmode, Hr. reflexivity. }
  assert (Heff : effective_verdict f s =
                 if TrackingResult_eqb (raw_verdict f s) TRACKING_FAILED
                 then TRACKING_POOR else raw_verdict f s).
  { rewrite effective_verdict_eq, Hq. reflexivity. }
  assert (Hnf : effective_verdict f s <> TRACKING_FAILED).
  { rewrite Heff. destruct (raw_verdict f s); simpl; discriminate. }
  split; [exact Heff |]. split; [exact Hnf |]. split.
  - rewrite (pose_run f s Hmore). unfold resolved_state. rewrite Hq.
    apply TrackingResult_eqb_neq in Hnf. rewrite Hnf. reflexivity.
  - intros Hen Hwarm Hlost.
    rewrite (fusion_executed_eq f s Hmore). unfold gate_open. rewrite Hen.
    apply N.leb_gt in Hwarm. rewrite Hwarm.
    apply TrackingResult_eqb_neq in Hnf. rewrite Hnf, andb_false_r. simpl.
    destruct (m_fallibleTracker s); [| reflexivity].
    rewrite Hlost; reflexivity.
Qed.

(** X3. A processed frame has exactly one of three outcomes: it is fused,
    or the visible list is updated without a reset, or (exactly when the
    effective verdict is FAILED) neither happens and the pose found on
    entry is restored; in the first two cases the pose left by the tracking
    step and the failure-mode switch is kept. *)
Theorem one_outcome_per_frame (f : Frame) (s : SLAMState) :
  hasMoreImages f = true ->
  visibility_updated f s =
    negb (fusion_executed f s)
    && negb (TrackingResult_eqb (effective_verdict f s) TRACKING_FAILED) /\
  (fusion_executed f s = true -> effective_verdict f s <> TRACKING_FAILED) /\
  pose_d (state_of (run f s)) =
    (if TrackingResult_eqb (effective_verdict f s) TRACKING_FAILED
     then pose_d s else pose_d (resolved_state f s)).
Proof.
  intros Hmore.
  assert (Hgate : TrackingResult_eqb (effective_verdict f s) TRACKING_FAILED = true ->
                  gate_open f s = false).
  { intros H. unfold gate_open. rewrite H. apply andb_false_r. }
  split; [| split].
  - unfold visibility_updated.
    rewrite (fusion_executed_eq f s Hmore), (run_events_eq f s Hmore).
    rewrite !existsb_app.
    rewrite existsb_outside_switch by (intros []; simpl; try congruence;
                                       destruct resetVisibleList; congruence).
    assert (Ht : existsb is_visibility_update (events (track_camera f s)) = false).
    { rewrite track_camera_eq. destruct (0 <? m_fusedFramesCount s)%N;
        reflexivity. }
    rewrite Ht. simpl.
    destruct (m_fallibleTracker s && verdict_allows_fusion f s); simpl;
      destruct (gate_open f s); simpl;
      destruct (TrackingResult_eqb (effective_verdict f s) TRACKING_FAILED);
      reflexivity.
  - rewrite (fusion_executed_eq f s Hmore). intros Hopen Hfailed.
    rewrite Hgate in Hopen; [discriminate |].
    rewrite Hfailed. reflexivity.
  - apply pose_run, Hmore.
Qed.

(** X4. A call of [run] returns true exactly when it found a frame.  It
    then prepares the tracker from the pose it leaves in the tracking state
    (the restored pose after a rollback), after the fusion, visible-list or
    rollback step, and calls neither the tracker, the dense mapper, the
    relocaliser nor the pose database afterwards: what follows is only the
    question to the current sub-engine. *)
Theorem prepare_from_final_pose (f : Frame) (s : SLAMState) :
  value (run f s) = hasMoreImages f /\
  (hasMoreImages f = true ->
   exists before,
     events (run f s) =
     before ++ [EvPrepare (pose_d (state_of (run f s)))]).
Proof.
  split; [apply run_value |].
  intros Hmore. pose proof (run_events_eq f s Hmore) as Hev.
  remember (EvPrepare (pose_d (state_of (run f s)))) as prepare.
  rewrite !app_assoc in Hev. eexists. exact Hev.
Qed.

(** The pose of the keyframe the relocaliser names when asked without
    keyframe candidacy, as the pose database has it on entry. *)
Definition nearest_keyframe_pose (f : Frame) (s : SLAMState) : Pose :=
  m_poseDatabase s !!! (ProcessFrame f false).2.

(** The failure-mode switch during a recovery. *)
Lemma recovery_resolution (f : Frame) (s : SLAMState) :
  recovery_triggered f s = true ->
  determine_tracking_quality f (state_of (track_camera f s)) =
  ((Retrack f (nearest_keyframe_pose f s)).2,
   with_keyframeDelay 10
     (with_trackerResult (Retrack f (nearest_keyframe_pose f s)).2
        (with_pose_d (Retrack f (nearest_keyframe_pose f s)).1
           (state_of (track_camera f s)))),
   [EvUpdateHostFromDevice; EvRelocProcessFrame false;
    EvRetrievePose (ProcessFrame f false).2;
    EvUpdateVisibleList (nearest_keyframe_pose f s) true;
    EvPrepare (nearest_keyframe_pose f s);
    EvTrack (nearest_keyframe_pose f s)]).
Proof.
  intros Hrec. rewrite recovery_triggered_eq in Hrec.
  apply andb_prop in Hrec as [Hrec Hnn].
  apply andb_prop in Hrec as [Hrec Hid].
  apply andb_prop in Hrec as [Hrec Hraw].
  apply andb_prop in Hrec as [Hmore Hmode].
  destruct (tracked_state f s) as (Hr & Hd & Hdb & Hm).
  rewrite determine_tracking_quality_eq, Hm.
  destruct (behaviourOnFailure s); try discriminate.
  rewrite relocalise_eq. cbv zeta. unfold considerKeyframe_flag.
  rewrite Hr, Hdb. apply TrackingResult_eqb_eq in Hraw. rewrite Hraw. simpl.
  apply negb_true_iff in Hid, Hnn. rewrite Hid, Hnn. reflexivity.
Qed.

(** The failure-mode switch when no recovery takes place: the verdict and
    the pose of the tracking state are not written. *)
Lemma plain_resolution (f : Frame) (s : SLAMState) :
  hasMoreImages f = true ->
  recovery_triggered f s = false ->
  trackerResult (resolved_state f s) = raw_verdict f s /\
  pose_d (resolved_state f s) = pose_d (state_of (track_camera f s)) /\
  existsb is_track
    (events (determine_tracking_quality f (state_of (track_camera f s)))) = false.
Proof.
  intros Hmore Hrec. rewrite recovery_triggered_eq, Hmore in Hrec.
  unfold resolved_state.
  destruct (tracked_state f s) as (Hr & Hd & Hdb & Hm).
  rewrite determine_tracking_quality_eq, Hm.
  destruct (behaviourOnFailure s); simpl in *; auto.
  rewrite relocalise_eq. cbv zeta.
  unfold considerKeyframe_flag, after_keyframe_decision. rewrite Hr.
  destruct (raw_verdict f s); simpl in *;
    destruct (m_keyframeDelay (state_of (track_camera f s)) =? 0)%N; simpl;
    repeat (case_on_match; simpl in * ); auto; try discriminate.
Qed.

(** X5. The failure-mode switch works on a copy of the verdict: the
    verdict kept in the tracking state is the one the tracker left there,
    that is the verdict of the rerun after a recovery and the verdict after
    the tracking step otherwise.  Under the ignore mode the frame is
    treated as GOOD while the tracking state keeps the tracker's verdict. *)
Theorem verdict_in_tracking_state (f : Frame) (s : SLAMState) :
  hasMoreImages f = true ->
  trackerResult (state_of (run f s)) =
    (if recovery_triggered f s then effective_verdict f s
     else raw_verdict f s) /\
  (behaviourOnFailure s = FAILUREMODE_IGNORE ->
   effective_verdict f s = TRACKING_GOOD /\
   trackerResult (state_of (run f s)) = raw_verdict f s).
Proof.
  intros Hmore. rewrite (trackerResult_run f s Hmore).
  assert (Hmain : trackerResult (resolved_state f s) =
                  if recovery_triggered f s then effective_verdict f s
                  else raw_verdict f s).
  { destruct (recovery_triggered f s) eqn:Hrec.
    - unfold resolved_state. rewrite effective_verdict_eq.
      rewrite (recovery_resolution f s Hrec). reflexivity.
    - apply (plain_resolution f s Hmore Hrec). }
  split; [exact Hmain |].
  intros Hmode.
  assert (Hrec : recovery_triggered f s = false).
  { rewrite recovery_triggered_eq, Hmode, andb_false_r. reflexivity. }
  split.
  - rewrite effective_verdict_eq, determine_tracking_quality_eq.
    destruct (tracked_state f s) as (_ & _ & _ & Hm). rewrite Hm, Hmode.
    reflexivity.
  - rewrite Hmain, Hrec. reflexivity.
Qed.

(** X6. The tracker is run at most twice in a call: once from the pose
    found on entry when a frame is processed and something has been fused
    already, and once more from the pose of the nearest keyframe when the
    relocalisation recovery takes place. *)
Theorem tracker_calls (f : Frame) (s : SLAMState) :
  List.filter is_track (events (run f s)) =
  (if hasMoreImages f && (0 <? m_fusedFramesCount s)%N
   then [EvTrack (pose_d s)] else [])
  ++ (if recovery_triggered f s
      then [EvTrack (nearest_keyframe_pose f s)] else []).
Proof.
  destruct (hasMoreImages f) eqn:Hmore.
  - rewrite (run_events_eq f s Hmore). rewrite !List.filter_app.
    assert (Hlost : forall b : bool,
              List.filter is_track (if b then [EvLostTracking] else []) = []).
    { intros []; reflexivity. }
    assert (Hout :
      List.filter is_track
        (if gate_open f s then [EvFuse (pose_d (resolved_state f s))]
         else if TrackingResult_eqb (effective_verdict f s) TRACKING_FAILED
              then []
              else [EvUpdateVisibleList (pose_d (resolved_state f s)) false])
      = []).
    { destruct (gate_open f s); [reflexivity |].
      destruct (TrackingResult_eqb _ _); reflexivity. }
    rewrite Hlost, Hout. simpl. rewrite app_nil_r. f_equal.
    + rewrite track_camera_eq. destruct (0 <? m_fusedFramesCount s)%N;
        reflexivity.
    + destruct (recovery_triggered f s) eqn:Hrec.
      * rewrite (recovery_resolution f s Hrec). reflexivity.
      * destruct (plain_resolution f s Hmore Hrec) as (_ & _ & Hnone).
        induction (events (determine_tracking_quality f
                             (state_of (track_camera f s)))) as [| e l IH];
          [reflexivity |].
        simpl in Hnone. apply orb_false_elim in Hnone as [He Hl].
        simpl. rewrite He. apply IH, Hl.
  - rewrite (run_no_images f s Hmore).
    assert (Hrec : recovery_triggered f s = false).
    { rewrite recovery_triggered_eq, Hmore. reflexivity. }
    rewrite Hrec. reflexivity.
Qed.

(** X7. The relocalisation recovery takes place exactly when a frame is
    processed under the relocalise mode, the verdict after the tracking
    step is FAILED, the relocaliser returns no keyframe id and names a
    nearest neighbour; a returned keyframe id takes precedence over the
    recovery. *)
Theorem recovery_exactly_when (f : Frame) (s : SLAMState) :
  recovery_triggered f s = true <->
  hasMoreImages f = true /\
  behaviourOnFailure s = FAILUREMODE_RELOCALISE /\
  raw_verdict f s = TRACKING_FAILED /\
  ((ProcessFrame f false).1 < 0)%Z /\
  (ProcessFrame f false).2 <> (-1)%Z.
Proof.
  rewrite recovery_triggered_eq. rewrite !andb_true_iff, !negb_true_iff.
  rewrite TrackingResult_eqb_eq, Z.leb_gt, Z.eqb_neq.
  destruct (behaviourOnFailure s); simpl; intuition congruence.
Qed.

(** X8. Under the relocalise mode the relocaliser is called exactly once
    per processed frame, and it is asked to consider the frame as a
    keyframe exactly when the verdict after the tracking step is GOOD and
    the keyframe delay found on entry is 0; in the other modes and without
    a frame it is not called. *)
Theorem relocaliser_calls (f : Frame) (s : SLAMState) :
  List.filter is_relocaliser_call (events (run f s)) =
  if hasMoreImages f && is_relocalise (behaviourOnFailure s)
  then [EvRelocProcessFrame
          (TrackingResult_eqb (raw_verdict f s) TRACKING_GOOD
           && (m_keyframeDelay s =? 0)%N)]
  else [].
Proof.
  destruct (hasMoreImages f) eqn:Hmore;
    [| rewrite (run_no_images f s Hmore); reflexivity].
  rewrite (run_events_eq f s Hmore). rewrite !List.filter_app.
  assert (Ht : List.filter is_relocaliser_call (events (track_camera f s)) = []).
  { rewrite track_camera_eq. destruct (0 <? m_fusedFramesCount s)%N;
      reflexivity. }
  assert (Hlost : forall b : bool,
            List.filter is_relocaliser_call (if b then [EvLostTracking] else []) = []).
  { intros []; reflexivity. }
  assert (Hout :
    List.filter is_relocaliser_call
      (if gate_open f s then [EvFuse (pose_d (resolved_state f s))]
       else if TrackingResult_eqb (effective_verdict f s) TRACKING_FAILED
            then []
            else [EvUpdateVisibleList (pose_d (resolved_state f s)) false])
    = []).
  { destruct (gate_open f s); [reflexivity |].
    destruct (TrackingResult_eqb _ _); reflexivity. }
  rewrite Ht, Hlost, Hout. simpl. rewrite app_nil_r.
  destruct (tracked_state f s) as (Hr & Hd & Hdb & Hm).
  rewrite determine_tracking_quality_eq, Hm.
  destruct (behaviourOnFailure s); simpl; try reflexivity.
  rewrite relocalise_eq. cbv zeta. unfold considerKeyframe_flag.
  rewrite Hr, Hd.
  repeat (case_on_match; simpl); reflexivity.
Qed.

Lemma visibility_updated_eq (f : Frame) (s : SLAMState) :
  hasMoreImages f = true ->
  visibility_updated f s =
  negb (gate_open f s)
  && negb (TrackingResult_eqb (effective_verdict f s) TRACKING_FAILED).
Proof.
  intros Hmore. unfold visibility_updated.
  rewrite (run_events_eq f s Hmore), !existsb_app.
  rewrite existsb_outside_switch by (intros []; simpl; try congruence;
                                     destruct resetVisibleList; congruence).
  assert (Ht : existsb is_visibility_update (events (track_camera f s)) = false).
  { rewrite track_camera_eq. destruct (0 <? m_fusedFramesCount s)%N;
      reflexivity. }
  rewrite Ht. simpl.
  destruct (m_fallibleTracker s && verdict_allows_fusion f s); simpl;
    destruct (gate_open f s); simpl;
    destruct (TrackingResult_eqb (effective_verdict f s) TRACKING_FAILED);
    reflexivity.
Qed.

(** X9. The fallible tracker is asked whether it lost tracking only when
    there is one and the verdict alone would allow fusion: never on a frame
    whose effective verdict is FAILED, nor on a POOR frame once
    [m_initialFramesToFuse] frames have been fused. *)
Theorem lost_tracking_asked_last (f : Frame) (s : SLAMState) :
  existsb is_lost_query (events (run f s)) =
  hasMoreImages f && m_fallibleTracker s && verdict_allows_fusion f s.
Proof.
  destruct (hasMoreImages f) eqn:Hmore;
    [| rewrite (run_no_images f s Hmore); reflexivity].
  rewrite (run_events_eq f s Hmore), !existsb_app.
  rewrite existsb_outside_switch by (intros []; simpl; congruence).
  assert (Ht : existsb is_lost_query (events (track_camera f s)) = false).
  { rewrite track_camera_eq. destruct (0 <? m_fusedFramesCount s)%N;
      reflexivity. }
  rewrite Ht. simpl.
  destruct (m_fallibleTracker s && verdict_allows_fusion f s); simpl;
    [reflexivity |].
  destruct (gate_open f s); simpl; [reflexivity |].
  destruct (TrackingResult_eqb _ _); reflexivity.
Qed.

(** X10. When the fallible tracker reports that it lost tracking, the frame
    is not fused and the fused-frame count stays as it is; unless the
    effective verdict is FAILED, the visible list is updated and the pose
    is kept rather than rolled back. *)
Theorem lost_tracking_stops_fusion (f : Frame) (s : SLAMState) :
  hasMoreImages f = true ->
  m_fallibleTracker s = true ->
  lost_tracking f = true ->
  fusion_executed f s = false /\
  m_fusedFramesCount (state_of (run f s)) = m_fusedFramesCount s /\
  (effective_verdict f s <> TRACKING_FAILED ->
   visibility_updated f s = true /\
   pose_d (state_of (run f s)) = pose_d (resolved_state f s)).
Proof.
  intros Hmore Hft Hlost.
  assert (Hgate : gate_open f s = false).
  { unfold gate_open. rewrite Hft, Hlost. simpl.
    rewrite orb_true_r. apply andb_false_r. }
  assert (Hfused : fusion_executed f s = false).
  { rewrite (fusion_executed_eq f s Hmore). exact Hgate. }
  split; [exact Hfused |]. split.
  - rewrite fusedFramesCount_run, Hfused. reflexivity.
  - intros Hnf. apply TrackingResult_eqb_neq in Hnf. split.
    + rewrite (visibility_updated_eq f s Hmore), Hgate, Hnf. reflexivity.
    + rewrite (pose_run f s Hmore), Hnf. reflexivity.
Qed.

(** ** Whole sessions *)

Lemma config_run (f : Frame) (s : SLAMState) :
  m_initialFramesToFuse (state_of (run f s)) = m_initialFramesToFuse s /\
  m_fallibleTracker (state_of (run f s)) = m_fallibleTracker s /\
  behaviourOnFailure (state_of (run f s)) = behaviourOnFailure s.
Proof.
  destruct (hasMoreImages f) eqn:Hmore;
    [| rewrite (run_no_images f s Hmore); repeat split; reflexivity].
  rewrite (run_state_eq f s Hmore). cbv zeta.
  destruct (gate_inputs_at_decision f s) as (_ & _ & Hi & Hft & Hm).
  destruct (subengineHasMoreImages f), (gate_open f s); simpl;
    try destruct (TrackingResult_eqb _ _); simpl; auto.
Qed.

Lemma config_exec (cs : list Call) (s : SLAMState) :
  m_initialFramesToFuse (exec cs s) = m_initialFramesToFuse s /\
  m_fallibleTracker (exec cs s) = m_fallibleTracker s /\
  behaviourOnFailure (exec cs s) = behaviourOnFailure s.
Proof.
  revert s. induction cs as [| [f | b] cs IH]; intros s; simpl.
  - repeat split; reflexivity.
  - destruct (IH (state_of (run f s))) as (-> & -> & ->). apply config_run.
  - destruct (IH (set_fusion_enabled b s)) as (-> & -> & ->).
    repeat split; reflexivity.
Qed.

(** All the calls made to the collaborators over a session. *)
Fixpoint session_events (cs : list Call) (s : SLAMState) : list Event :=
  match cs with
  | [] => []
  | CallRun f :: cs' =>
      events (run f s) ++ session_events cs' (state_of (run f s))
  | CallSetFusionEnabled b :: cs' => session_events cs' (set_fusion_enabled b s)
  end.

(** No call of the session triggers the relocalisation recovery. *)
Fixpoint recovery_free (cs : list Call) (s : SLAMState) : bool :=
  match cs with
  | [] => true
  | CallRun f :: cs' =>
      negb (recovery_triggered f s) && recovery_free cs' (state_of (run f s))
  | CallSetFusionEnabled b :: cs' => recovery_free cs' (set_fusion_enabled b s)
  end.

Lemma keyframeDelay_bounded (cs : list Call) (s : SLAMState) :
  (m_keyframeDelay (exec cs s) <= N.max 10 (m_keyframeDelay s))%N.
Proof.
  revert s. induction cs as [| [f | b] cs IH]; intros s; simpl.
  - lia.
  - specialize (IH (state_of (run f s))).
    pose proof (keyframeDelay_step f s) as Hstep.
    destruct (recovery_triggered f s); [lia |].
    destruct (good_frame f s && is_relocalise (behaviourOnFailure s)
              && negb (m_keyframeDelay s =? 0)%N); lia.
  - apply (IH (set_fusion_enabled b s)).
Qed.

Lemma lost_never_asked (cs : list Call) (s : SLAMState) :
  m_fallibleTracker s = false ->
  existsb is_lost_query (session_events cs s) = false.
Proof.
  revert s. induction cs as [| [f | b] cs IH]; intros s Hnone; simpl.
  - reflexivity.
  - destruct (config_run f s) as (_ & Hft & _).
    rewrite existsb_app, IH by congruence. rewrite orb_false_r.
    destruct (hasMoreImages f) eqn:Hmore;
      [| rewrite (run_no_images f s Hmore); reflexivity].
    rewrite (run_events_eq f s Hmore), !existsb_app, Hnone.
    rewrite existsb_outside_switch by (intros []; simpl; congruence).
    assert (Ht : existsb is_lost_query (events (track_camera f s)) = false).
    { rewrite track_camera_eq. destruct (0 <? m_fusedFramesCount s)%N;
        reflexivity. }
    rewrite Ht. simpl.
    destruct (gate_open f s); simpl; [reflexivity |].
    destruct (TrackingResult_eqb _ _); reflexivity.
  - apply (IH (set_fusion_enabled b s)). exact Hnone.
Qed.

(** X11. Neither [run] nor [set_fusion_enabled] ever changes the number of
    initial frames to fuse, the failure mode or the fallible tracker of a
    session, and the keyframe delay never exceeds the larger of 10 and its
    starting value. *)
Theorem session_configuration_fixed (cs : list Call) (s : SLAMState) :
  m_initialFramesToFuse (exec cs s) = m_initialFramesToFuse s /\
  m_fallibleTracker (exec cs s) = m_fallibleTracker s /\
  behaviourOnFailure (exec cs s) = behaviourOnFailure s /\
  (m_keyframeDelay (exec cs s) <= N.max 10 (m_keyframeDelay s))%N.
Proof.
  destruct (config_exec cs s) as (Hi & Hft & Hm).
  split; [exact Hi |]. split; [exact Hft |]. split; [exact Hm |].
  apply keyframeDelay_bounded.
Qed.

(** X12. The component never removes a pose from the pose database: over
    any session the set of keyframe ids with a stored pose only grows, and
    a single call of [run] leaves every entry alone except the one of the
    keyframe id the relocaliser has just returned. *)
Theorem pose_database_grows (cs : list Call) (f : Frame) (s : SLAMState)
    (id : Z) :
  dom (m_poseDatabase s) ⊆ dom (m_poseDatabase (exec cs s)) /\
  (id <> (ProcessFrame f (considers_keyframe f s)).1 ->
   m_poseDatabase (state_of (run f s)) !! id = m_poseDatabase s !! id).
Proof.
  assert (Hone : forall (f : Frame) (s : SLAMState),
            m_poseDatabase (state_of (run f s)) = m_poseDatabase s \/
            m_poseDatabase (state_of (run f s)) =
              <[(ProcessFrame f (considers_keyframe f s)).1 :=
                  pose_d (state_of (track_camera f s))]> (m_poseDatabase s)).
  { clear. intros f s.
    destruct (hasMoreImages f) eqn:Hmore;
      [| rewrite (run_no_images f s Hmore); left; reflexivity].
    rewrite (poseDatabase_run f s Hmore).
    destruct (tracked_state f s) as (Hr & Hd & Hdb & Hm).
    rewrite determine_tracking_quality_eq, Hm.
    destruct (behaviourOnFailure s) eqn:Hmode; simpl; auto.
    rewrite relocalise_eq. cbv zeta.
    rewrite considers_keyframe_eq, Hmore, Hmode. simpl.
    unfold considerKeyframe_flag, after_keyframe_decision. rewrite Hr, Hd, Hdb.
    repeat (case_on_match; simpl); auto. }
  split.
  - clear f id. revert s. induction cs as [| [f | b] cs IH]; intros s; simpl.
    + reflexivity.
    + etransitivity; [| apply IH].
      destruct (Hone f s) as [-> | ->]; [reflexivity |].
      rewrite dom_insert_L. set_solver.
    + apply (IH (set_fusion_enabled b s)).
  - intros Hid. destruct (Hone f s) as [-> | ->]; [reflexivity |].
    rewrite lookup_insert_ne by congruence. reflexivity.
Qed.

Lemma untracked_call (f : Frame) (s : SLAMState) :
  m_fusedFramesCount s = 0%N ->
  recovery_triggered f s = false ->
  existsb is_track (events (run f s)) = false /\
  pose_d (state_of (run f s)) = pose_d s.
Proof.
  intros Hcount Hrec.
  destruct (hasMoreImages f) eqn:Hmore;
    [| rewrite (run_no_images f s Hmore); split; reflexivity].
  assert (Hskip : track_camera f s = (tt, s, [])).
  { rewrite track_camera_eq, Hcount. reflexivity. }
  destruct (plain_resolution f s Hmore Hrec) as (_ & Hpose & Hnone).
  rewrite Hskip in Hpose. simpl in Hpose.
  split.
  - rewrite (run_events_eq f s Hmore), !existsb_app, Hnone, Hskip. simpl.
    destruct (m_fallibleTracker s && verdict_allows_fusion f s); simpl;
      destruct (gate_open f s); simpl;
      try destruct (TrackingResult_eqb _ _); reflexivity.
  - rewrite (pose_run f s Hmore), Hpose.
    destruct (TrackingResult_eqb _ _); reflexivity.
Qed.

(** X13. While fusion is disabled and nobody enables it, no call of [run]
    asks the dense mapper to fuse, and the fused-frame count does not move. *)
Theorem nothing_fused_while_disabled (cs : list Call) (s : SLAMState) :
  m_fusionEnabled s = false ->
  forallb (fun c => negb (is_enable c)) cs = true ->
  existsb is_fuse (session_events cs s) = false /\
  m_fusedFramesCount (exec cs s) = m_fusedFramesCount s.
Proof.
  revert s. induction cs as [| [f | b] cs IH]; intros s Hoff Hcs; simpl in *.
  - split; reflexivity.
  - assert (Hfused : fusion_executed f s = false).
    { rewrite fusion_executed_gate. unfold gate_open. rewrite Hoff.
      apply andb_false_r. }
    assert (Hoff' : m_fusionEnabled (state_of (run f s)) = false).
    { rewrite fusionEnabled_run, Hoff. reflexivity. }
    destruct (IH (state_of (run f s)) Hoff' Hcs) as [Hev Hcount].
    split.
    + rewrite existsb_app, Hev. unfold fusion_executed in Hfused.
      rewrite Hfused. reflexivity.
    + rewrite Hcount, fusedFramesCount_run, Hfused. reflexivity.
  - apply andb_prop in Hcs as [Hb Hcs]. destruct b; [discriminate |].
    apply (IH (set_fusion_enabled false s)); [reflexivity | exact Hcs].
Qed.

(** X14. A component on which fusion is disabled before anything has been
    fused never runs the tracker, apart from relocalisation recoveries: as
    long as nobody enables fusion and no recovery takes place, the pose of
    the tracking state stays where it was. *)
Theorem pose_frozen_before_first_fusion (cs : list Call) (s : SLAMState) :
  m_fusedFramesCount s = 0%N ->
  m_fusionEnabled s = false ->
  forallb (fun c => negb (is_enable c)) cs = true ->
  recovery_free cs s = true ->
  existsb is_track (session_events cs s) = false /\
  pose_d (exec cs s) = pose_d s.
Proof.
  revert s.
  induction cs as [| [f | b] cs IH]; intros s Hcount Hoff Hcs Hfree;
    simpl in *.
  - split; reflexivity.
  - apply andb_prop in Hfree as [Hrec Hfree].
    apply negb_true_iff in Hrec.
    destruct (untracked_call f s Hcount Hrec) as [Hnone Hpose].
    assert (Hfused : fusion_executed f s = false).
    { rewrite fusion_executed_gate. unfold gate_open. rewrite Hoff.
      apply andb_false_r. }
    assert (Hcount' : m_fusedFramesCount (state_of (run f s)) = 0%N).
    { rewrite fusedFramesCount_run, Hfused. exact Hcount. }
    assert (Hoff' : m_fusionEnabled (state_of (run f s)) = false).
    { rewrite fusionEnabled_run, Hoff. reflexivity. }
    destruct (IH (state_of (run f s)) Hcount' Hoff' Hcs Hfree) as [Hev Hp].
    split.
    + rewrite existsb_app, Hnone, Hev. reflexivity.
    + rewrite Hp. exact Hpose.
  - apply andb_prop in Hcs as [Hb Hcs]. destruct b; [discriminate |].
    apply (IH (set_fusion_enabled false s)); auto.
Qed.

(** X15. Under the relocalise mode, as long as no recovery takes place the
    keyframe delay counts down by one per processed frame with verdict GOOD
    and stops at 0; the relocaliser is then asked to consider a frame as a
    keyframe exactly when that frame is GOOD and at least as many GOOD
    frames as the delay was have been processed. *)
Theorem keyframe_delay_countdown (cs : list Call) (f : Frame)
    (s : SLAMState) :
  behaviourOnFailure s = FAILUREMODE_RELOCALISE ->
  recovery_free cs s = true ->
  m_keyframeDelay (exec cs s) =
    (m_keyframeDelay s - N.of_nat (good_frames cs s))%N /\
  considers_keyframe f (exec cs s) =
    good_frame f (exec cs s)
    && (m_keyframeDelay s <=? N.of_nat (good_frames cs s))%N.
Proof.
  intros Hmode Hfree.
  assert (Hdelay : m_keyframeDelay (exec cs s) =
                   (m_keyframeDelay s - N.of_nat (good_frames cs s))%N).
  { clear f. unfold good_frames. revert s Hmode Hfree.
    induction cs as [| [f | b] cs IH]; intros s Hmode Hfree; simpl in *.
    - lia.
    - apply andb_prop in Hfree as [Hrec Hfree].
      apply negb_true_iff in Hrec.
      destruct (config_run f s) as (_ & _ & Hm).
      rewrite (IH (state_of (run f s))) by (try assumption; congruence).
      rewrite keyframeDelay_step, Hrec, Hmode. simpl.
      destruct (good_frame f s); simpl.
      + destruct (N.eqb_spec (m_keyframeDelay s) 0); simpl; lia.
      + reflexivity.
    - apply (IH (set_fusion_enabled b s)); assumption. }
  split; [exact Hdelay |].
  destruct (config_exec cs s) as (_ & _ & Hm).
  rewrite considers_keyframe_eq, Hm, Hmode. unfold good_frame,
    considerKeyframe_flag. rewrite Hdelay. simpl.
  rewrite andb_true_r, andb_assoc. f_equal.
  destruct (N.eqb_spec (m_keyframeDelay s - N.of_nat (good_frames cs s)) 0);
    destruct (N.leb_spec (m_keyframeDelay s) (N.of_nat (good_frames cs s)));
    try reflexivity; lia.
Qed.

Lemma first_frame_tracks (f : Frame) (s : SLAMState) :
  hasMoreImages f = true ->
  m_fusedFramesCount s = 0%N ->
  (exists rest,
     events (run f s) =
     [EvGetImages; EvUpdateView] ++ events (determine_tracking_quality f s)
       ++ rest /\
     existsb is_track rest = false) /\
  List.filter is_track (events (run f s)) =
    (if recovery_triggered f s
     then [EvTrack (nearest_keyframe_pose f s)] else []).
Proof.
  intros Hmore Hcount.
  assert (Hskip : track_camera f s = (tt, s, [])).
  { rewrite track_camera_eq, Hcount. reflexivity. }
  assert (Hrest :
    existsb is_track
      ((if m_fallibleTracker s && verdict_allows_fusion f s
        then [EvLostTracking] else [])
       ++ (if gate_open f s then [EvFuse (pose_d (resolved_state f s))]
           else if TrackingResult_eqb (effective_verdict f s) TRACKING_FAILED
                then []
                else [EvUpdateVisibleList (pose_d (resolved_state f s)) false])
       ++ [EvPrepare (pose_d (state_of (run f s)))]) = false).
  { destruct (m_fallibleTracker s && verdict_allows_fusion f s);
      destruct (gate_open f s);
      try destruct (TrackingResult_eqb (effective_verdict f s) TRACKING_FAILED);
      reflexivity. }
  pose proof (run_events_eq f s Hmore) as Hev. rewrite Hskip in Hev.
  simpl state_of in Hev. simpl events in Hev. rewrite app_nil_l in Hev.
  remember ((if m_fallibleTracker s && verdict_allows_fusion f s
             then [EvLostTracking] else [])
            ++ (if gate_open f s then [EvFuse (pose_d (resolved_state f s))]
                else if TrackingResult_eqb (effective_verdict f s)
                          TRACKING_FAILED
                     then []
                     else [EvUpdateVisibleList (pose_d (resolved_state f s))
                             false])
            ++ [EvPrepare (pose_d (state_of (run f s)))]) as rest.
  split.
  - exists rest. split; [exact Hev | exact Hrest].
  - assert (Hnone : forall l, existsb is_track l = false ->
                              List.filter is_track l = []).
    { clear. induction l as [| e l IH]; [reflexivity |]. simpl.
      intros Hl. apply orb_false_elim in Hl as [He Hl].
      rewrite He. apply IH, Hl. }
    rewrite Hev.
    rewrite (List.filter_app is_track [EvGetImages; EvUpdateView]).
    rewrite (List.filter_app is_track (events (determine_tracking_quality f s))).
    rewrite (Hnone rest Hrest), app_nil_r. simpl List.filter at 1.
    rewrite app_nil_l.
    destruct (recovery_triggered f s) eqn:Hrec.
    + pose proof (recovery_resolution f s Hrec) as Hq.
      rewrite Hskip in Hq. simpl state_of in Hq. rewrite Hq. reflexivity.
    + destruct (plain_resolution f s Hmore Hrec) as (_ & _ & Hq).
      rewrite Hskip in Hq. simpl state_of in Hq.
      simpl. apply Hnone, Hq.
Qed.

(** C9. While nothing has been fused yet, [run] skips the tracking step:
    the calls of the failure-mode switch, made from the state found on
    entry, come right after the view update, no call that follows them
    runs the tracker, and the only tracker call such a call of [run] can
    contain is the rerun of a relocalisation recovery, from the pose of the
    keyframe; without a recovery the pose and the verdict of the tracking
    state are left as they were.  On such a frame under the ignore failure
    mode, with fusion enabled and no lost-tracking report, the effective
    verdict is GOOD, the dense mapper fuses, and the fused-frame count
    becomes 1. *)
Theorem first_frame (f : Frame) (s : SLAMState) :
  hasMoreImages f = true ->
  m_fusedFramesCount s = 0%N ->
  (track_camera f s = (tt, s, []) /\
   raw_verdict f s = trackerResult s /\
   (exists rest,
      events (run f s) =
      [EvGetImages; EvUpdateView] ++ events (determine_tracking_quality f s)
        ++ rest /\
      existsb is_track rest = false) /\
   List.filter is_track (events (run f s)) =
     (if recovery_triggered f s
      then [EvTrack (nearest_keyframe_pose f s)] else []) /\
   (recovery_triggered f s = false ->
    pose_d (state_of (run f s)) = pose_d s /\
    trackerResult (state_of (run f s)) = trackerResult s)) /\
  (behaviourOnFailure s = FAILUREMODE_IGNORE ->
   m_fusionEnabled s = true ->
   (m_fallibleTracker s = true -> lost_tracking f = false) ->
   effective_verdict f s = TRACKING_GOOD /\
   fusion_executed f s = true /\
   m_fusedFramesCount (state_of (run f s)) = 1%N /\
   events (run f s) =
     [EvGetImages; EvUpdateView]
       ++ (if m_fallibleTracker s then [EvLostTracking] else [])
       ++ [EvFuse (pose_d s); EvPrepare (pose_d s)]).
Proof.
  intros Hmore Hcount.
  assert (Hskip : track_camera f s = (tt, s, [])).
  { rewrite track_camera_eq, Hcount. reflexivity. }
  assert (Hraw : raw_verdict f s = trackerResult s).
  { rewrite raw_verdict_eq, Hskip. reflexivity. }
  destruct (first_frame_tracks f s Hmore Hcount) as [Hrest Htracks].
  split.
  - split; [exact Hskip |]. split; [exact Hraw |].
    split; [exact Hrest |]. split; [exact Htracks |].
    intros Hrec. split.
    + apply (untracked_call f s Hcount Hrec).
    + rewrite (trackerResult_run f s Hmore).
      destruct (plain_resolution f s Hmore Hrec) as (Hkept & _ & _).
      rewrite Hkept. exact Hraw.
  - intros Hmode Hen Hlost.
    assert (Heff : effective_verdict f s = TRACKING_GOOD).
    { rewrite effective_verdict_eq, Hskip. simpl.
      rewrite determine_tracking_quality_eq, Hmode. reflexivity. }
    assert (Hgate : gate_open f s = true).
    { unfold gate_open. rewrite Hen, Heff. simpl.
      destruct (m_fallibleTracker s); [| reflexivity].
      rewrite Hlost; reflexivity. }
    assert (Hfused : fusion_executed f s = true).
    { rewrite (fusion_executed_eq f s Hmore). exact Hgate. }
    split; [exact Heff |]. split; [exact Hfused |]. split.
    + rewrite fusedFramesCount_run, Hfused, Hcount. reflexivity.
    + rewrite (run_phases f s Hmore). cbv zeta. rewrite Hskip. simpl.
      rewrite determine_tracking_quality_eq, Hmode. simpl.
      unfold decide_runFusion, fallible_tracker_lost,
        apply_outcome, DenseMapper_ProcessFrame.
      unfold_monad. simpl. rewrite Hen.
      destruct (m_fallibleTracker s); simpl; [| reflexivity].
      rewrite Hlost by reflexivity. reflexivity.
Qed.

End SLAM.

Arguments Event : clear implicits.
Arguments SLAMState : clear implicits.
Arguments Frame : clear implicits.
Arguments Call : clear implicits.
Arguments M : clear implicits.

(** ** Scenarios

    Poses are integers here.  [tracker_moves q] is a tracker that moves the
    camera by one and reports [q]. *)

Definition tracker_moves (q : TrackingResult) (p : Z) : Z * TrackingResult :=
  ((p + 1)%Z, q).

(** A relocaliser that finds nothing and harvests nothing. *)
Definition relocaliser_silent (considerKeyframe : bool) : Z * Z :=
  ((-1)%Z, (-1)%Z).

(** A relocaliser that names keyframe 7 as nearest neighbour. *)
Definition relocaliser_finds_7 (considerKeyframe : bool) : Z * Z :=
  ((-1)%Z, 7%Z).

(** A relocaliser that adds the frame as keyframe 3 when asked to. *)
Definition relocaliser_harvests_3 (considerKeyframe : bool) : Z * Z :=
  (if considerKeyframe then 3%Z else (-1)%Z, (-1)%Z).

(** The component as its constructor leaves it (no fused frame, fusion
    enabled, 50 initial frames, no keyframe delay, empty pose database),
    for a given failure mode and presence of a fallible tracker. *)
Definition constructed (mode : FailureMode) (fallible : bool) : SLAMState Z :=
  mkState 0 true 50 0 fallible ∅ mode 0%Z TRACKING_GOOD.

(** A session in progress under the relocalise mode: 80 frames fused,
    camera at 20, keyframe 7 stored with pose 100. *)
Definition mapping : SLAMState Z :=
  mkState 80 true 50 0 false {[ 7%Z := 100%Z ]} FAILUREMODE_RELOCALISE 20%Z
    TRACKING_GOOD.

Definition frame_tracked (q : TrackingResult) : Frame Z :=
  mkFrame true (tracker_moves q) relocaliser_silent
    (tracker_moves TRACKING_GOOD) false true.

(** Tracking fails, keyframe 7 is found, the rerun reports [q]. *)
Definition frame_lost (q : TrackingResult) : Frame Z :=
  mkFrame true (tracker_moves TRACKING_FAILED) relocaliser_finds_7
    (tracker_moves q) false true.

Definition frame_harvested : Frame Z :=
  mkFrame true (tracker_moves TRACKING_GOOD) relocaliser_harvests_3
    (tracker_moves TRACKING_GOOD) false true.

(** The last frame of the current sub-engine; the composite source still
    has images in a later sub-engine. *)
Definition frame_last_of_substream : Frame Z :=
  mkFrame true (tracker_moves TRACKING_GOOD) relocaliser_silent
    (tracker_moves TRACKING_GOOD) false false.

Definition no_frame : Frame Z :=
  mkFrame false (tracker_moves TRACKING_GOOD) relocaliser_silent
    (tracker_moves TRACKING_GOOD) false false.

(** After a recovery: five good frames, a poor one, five more good ones. *)
Definition interrupted_recovery : list (Call Z) :=
  repeat (CallRun (frame_tracked TRACKING_GOOD)) 5
    ++ [CallRun (frame_tracked TRACKING_POOR)]
    ++ repeat (CallRun (frame_tracked TRACKING_GOOD)) 5.

(** The scenarios of the specification. *)

Example scenario_first_frame_ignore :
  run (frame_tracked TRACKING_FAILED) (constructed FAILUREMODE_IGNORE false) =
  (true,
   mkState 1 true 50 0 false ∅ FAILUREMODE_IGNORE 0%Z TRACKING_GOOD,
   [EvGetImages; EvUpdateView; EvFuse 0%Z; EvPrepare 0%Z]).
Proof. vm_compute. reflexivity. Qed.

Example scenario_poor_after_warm_start :
  run (frame_tracked TRACKING_POOR) mapping =
  (true,
   mkState 80 true 50 0 false {[ 7%Z := 100%Z ]} FAILUREMODE_RELOCALISE 21%Z
     TRACKING_POOR,
   [EvGetImages; EvUpdateView; EvTrack 20%Z; EvUpdateHostFromDevice;
    EvRelocProcessFrame false; EvUpdateVisibleList 21%Z false;
    EvPrepare 21%Z]).
Proof. vm_compute. reflexivity. Qed.

Example scenario_relocalise_from_keyframe_7 :
  run (frame_lost TRACKING_GOOD) mapping =
  (true,
   mkState 81 true 50 10 false {[ 7%Z := 100%Z ]} FAILUREMODE_RELOCALISE 101%Z
     TRACKING_GOOD,
   [EvGetImages; EvUpdateView; EvTrack 20%Z; EvUpdateHostFromDevice;
    EvRelocProcessFrame false; EvRetrievePose 7;
    EvUpdateVisibleList 100%Z true; EvPrepare 100%Z; EvTrack 100%Z;
    EvFuse 101%Z; EvPrepare 101%Z]).
Proof. vm_compute. reflexivity. Qed.

(** ** The theorems at work on the scenarios *)

Lemma fusion_gate_witness :
  hasMoreImages (frame_tracked TRACKING_GOOD) = true /\
  (fusion_executed (frame_tracked TRACKING_GOOD) mapping = true <->
   m_fusionEnabled mapping = true /\
   effective_verdict (frame_tracked TRACKING_GOOD) mapping <> TRACKING_FAILED /\
   (effective_verdict (frame_tracked TRACKING_GOOD) mapping <> TRACKING_POOR \/
    (m_fusedFramesCount mapping < m_initialFramesToFuse mapping)%N) /\
   (m_fallibleTracker mapping = true ->
    lost_tracking (frame_tracked TRACKING_GOOD) = false)).
Proof.
  split; [reflexivity |].
  apply (fusion_gate (frame_tracked TRACKING_GOOD) mapping). reflexivity.
Defined.

Lemma rollback_law_witness :
  hasMoreImages (frame_lost TRACKING_FAILED) = true /\
  effective_verdict (frame_lost TRACKING_FAILED) mapping = TRACKING_FAILED /\
  value (run (frame_lost TRACKING_FAILED) mapping) = true /\
  fusion_executed (frame_lost TRACKING_FAILED) mapping = false /\
  pose_d (state_of (run (frame_lost TRACKING_FAILED) mapping)) = pose_d mapping.
Proof.
  split; [reflexivity |]. split; [reflexivity |].
  apply (rollback_law (frame_lost TRACKING_FAILED) mapping); reflexivity.
Defined.

Lemma relocalisation_recovery_order_witness :
  hasMoreImages (frame_lost TRACKING_GOOD) = true /\
  behaviourOnFailure mapping = FAILUREMODE_RELOCALISE /\
  raw_verdict (frame_lost TRACKING_GOOD) mapping = TRACKING_FAILED /\
  ((ProcessFrame (frame_lost TRACKING_GOOD) false).1 < 0)%Z /\
  (ProcessFrame (frame_lost TRACKING_GOOD) false).2 <> (-1)%Z /\
  (exists rest,
     events (run (frame_lost TRACKING_GOOD) mapping) =
     [EvGetImages; EvUpdateView] ++ [EvTrack 20%Z] ++
     [EvUpdateHostFromDevice; EvRelocProcessFrame false; EvRetrievePose 7;
      EvUpdateVisibleList 100%Z true; EvPrepare 100%Z; EvTrack 100%Z] ++ rest) /\
  effective_verdict (frame_lost TRACKING_GOOD) mapping = TRACKING_GOOD /\
  m_keyframeDelay (state_of (run (frame_lost TRACKING_GOOD) mapping)) = 10%N.
Proof.
  split; [reflexivity |]. split; [reflexivity |]. split; [reflexivity |].
  split; [reflexivity |]. split; [discriminate |].
  apply (relocalisation_recovery_order (frame_lost TRACKING_GOOD) mapping);
    solve [reflexivity | discriminate].
Defined.

(** C4 as stated fails: after the recovery on [frame_lost], five good
    frames, one poor frame and five more good frames bring the keyframe
    delay back to 0, and the next good frame is offered to the relocaliser
    as a keyframe although no ten good frames in a row were seen. *)
Lemma cooldown_counts_scattered_good_frames :
  recovery_triggered (frame_lost TRACKING_GOOD) mapping = true /\
  m_keyframeDelay (state_of (run (frame_lost TRACKING_GOOD) mapping)) = 10%N /\
  longest_streak
    (good_flags interrupted_recovery
       (state_of (run (frame_lost TRACKING_GOOD) mapping))) 0 = 5 /\
  good_frames interrupted_recovery
    (state_of (run (frame_lost TRACKING_GOOD) mapping)) = 10 /\
  considers_keyframe (frame_tracked TRACKING_GOOD)
    (exec interrupted_recovery
       (state_of (run (frame_lost TRACKING_GOOD) mapping))) = true.
Proof. vm_compute. repeat split; reflexivity. Qed.

Lemma keyframe_cooldown_witness :
  recovery_triggered (frame_lost TRACKING_GOOD) mapping = true /\
  behaviourOnFailure mapping = FAILUREMODE_RELOCALISE /\
  m_keyframeDelay (state_of (run (frame_lost TRACKING_GOOD) mapping)) = 10%N /\
  (considers_keyframe (frame_tracked TRACKING_GOOD)
     (exec interrupted_recovery
        (state_of (run (frame_lost TRACKING_GOOD) mapping))) = true ->
   10 <= good_frames interrupted_recovery
           (state_of (run (frame_lost TRACKING_GOOD) mapping))).
Proof.
  split; [vm_compute; reflexivity |].
  apply (keyframe_cooldown (frame_lost TRACKING_GOOD)
           (frame_tracked TRACKING_GOOD) mapping interrupted_recovery).
  vm_compute. reflexivity.
Defined.

(** C5 as stated fails: once the sub-engine has run dry and fusion has been
    disabled, [set_fusion_enabled(true)] enables it again, and the next
    frame (from the next sub-engine) is fused. *)
Lemma fusion_reenabled_after_exhaustion :
  hasMoreImages frame_last_of_substream = true /\
  subengineHasMoreImages frame_last_of_substream = false /\
  get_fusion_enabled (state_of (run frame_last_of_substream mapping)) = false /\
  get_fusion_enabled
    (exec [CallSetFusionEnabled true; CallRun (frame_tracked TRACKING_GOOD)]
       (state_of (run frame_last_of_substream mapping))) = true /\
  fusion_executed (frame_tracked TRACKING_GOOD)
    (set_fusion_enabled true
       (state_of (run frame_last_of_substream mapping))) = true.
Proof. vm_compute. repeat split; reflexivity. Qed.

Lemma fusion_disabled_until_reenabled_witness :
  hasMoreImages frame_last_of_substream = true /\
  subengineHasMoreImages frame_last_of_substream = false /\
  get_fusion_enabled (state_of (run frame_last_of_substream mapping)) = false /\
  (forallb (fun c => negb (is_enable c))
     [CallRun (frame_tracked TRACKING_GOOD); CallSetFusionEnabled false;
      CallRun (frame_tracked TRACKING_GOOD)] = true ->
   get_fusion_enabled
     (exec [CallRun (frame_tracked TRACKING_GOOD); CallSetFusionEnabled false;
            CallRun (frame_tracked TRACKING_GOOD)]
        (state_of (run frame_last_of_substream mapping))) = false) /\
  get_fusion_enabled
    (set_fusion_enabled true
       (exec [CallRun (frame_tracked TRACKING_GOOD); CallSetFusionEnabled false;
              CallRun (frame_tracked TRACKING_GOOD)]
          (state_of (run frame_last_of_substream mapping)))) = true.
Proof.
  split; [reflexivity |]. split; [reflexivity |].
  apply (fusion_disabled_until_reenabled frame_last_of_substream mapping);
    reflexivity.
Defined.

Lemma keyframe_harvest_witness :
  hasMoreImages frame_harvested = true /\
  behaviourOnFailure mapping = FAILUREMODE_RELOCALISE /\
  harvests_on_request frame_harvested = true /\
  considers_keyframe frame_harvested mapping = true /\
  In (EvRelocProcessFrame true) (events (run frame_harvested mapping)) /\
  raw_verdict frame_harvested mapping = TRACKING_GOOD /\
  effective_verdict frame_harvested mapping = TRACKING_GOOD /\
  m_poseDatabase (state_of (run frame_harvested mapping)) !! 3%Z =
    Some (pose_d (state_of (run frame_harvested mapping))).
Proof.
  destruct (keyframe_harvest frame_harvested mapping eq_refl eq_refl)
    as (Hcall & Hflag & _ & Hgood).
  destruct (Hflag eq_refl) as [Hraw _].
  destruct (Hgood eq_refl ltac:(vm_compute; discriminate)) as [Heff Hdb].
  repeat split; assumption.
Defined.

Lemma run_without_images_witness :
  hasMoreImages no_frame = false /\
  value (run no_frame mapping) = false /\
  state_of (run no_frame mapping) = mapping /\
  events (run no_frame mapping) = [] /\
  m_fusedFramesCount (state_of (run no_frame mapping)) =
    m_fusedFramesCount mapping /\
  pose_d (state_of (run no_frame mapping)) = pose_d mapping /\
  m_keyframeDelay (state_of (run no_frame mapping)) = m_keyframeDelay mapping /\
  get_fusion_enabled (state_of (run no_frame mapping)) =
    get_fusion_enabled mapping.
Proof.
  split; [reflexivity |].
  apply (run_without_images no_frame mapping). reflexivity.
Defined.

Lemma first_frame_witness :
  hasMoreImages (frame_tracked TRACKING_FAILED) = true /\
  m_fusedFramesCount (constructed FAILUREMODE_IGNORE true) = 0%N /\
  track_camera (frame_tracked TRACKING_FAILED)
    (constructed FAILUREMODE_IGNORE true) =
    (tt, constructed FAILUREMODE_IGNORE true, []) /\
  effective_verdict (frame_tracked TRACKING_FAILED)
    (constructed FAILUREMODE_IGNORE true) = TRACKING_GOOD /\
  fusion_executed (frame_tracked TRACKING_FAILED)
    (constructed FAILUREMODE_IGNORE true) = true /\
  m_fusedFramesCount
    (state_of (run (frame_tracked TRACKING_FAILED)
                 (constructed FAILUREMODE_IGNORE true))) = 1%N.
Proof.
  destruct (first_frame (frame_tracked TRACKING_FAILED)
              (constructed FAILUREMODE_IGNORE true) eq_refl eq_refl)
    as [(Hskip & _ & _) Hignore].
  destruct (Hignore eq_refl eq_refl (fun _ => eq_refl))
    as (Heff & Hfused & Hcount & _).
  repeat split; assumption.
Defined.

Lemma exhaustion_disables_from_next_call_witness :
  hasMoreImages frame_last_of_substream = true /\
  subengineHasMoreImages frame_last_of_substream = false /\
  fusion_executed frame_last_of_substream mapping = true /\
  m_fusedFramesCount (state_of (run frame_last_of_substream mapping)) = 81%N /\
  get_fusion_enabled (state_of (run frame_last_of_substream mapping)) = false /\
  fusion_executed (frame_tracked TRACKING_GOOD)
    (state_of (run frame_last_of_substream mapping)) = false.
Proof.
  destruct (exhaustion_disables_from_next_call frame_last_of_substream
              (frame_tracked TRACKING_GOOD) mapping eq_refl eq_refl)
    as (_ & Hstill & Hoff & Hnext).
  destruct (Hstill eq_refl eq_refl (fun _ => eq_refl)) as [Hfused Hcount].
  repeat split; assumption.
Defined.

(** * Construction of the component

    The constructor of [SLAMComponent] (lines 29-87) with [setup_tracker]
    (lines 241-288) and [make_hybrid_tracker] (lines 225-239).  The
    preprocessor symbols [WITH_OVR] and [WITH_VICON] decide which branches
    of [setup_tracker] exist. *)

From stdpp Require Import strings.

Record BuildOptions : Set := mkBuild {
  WITH_OVR : bool;
  WITH_VICON : bool
}.

(** The tracker types [setup_tracker] switches on; its [default:] label is
    the case of [TRACKER_INFINITAM]. *)
Inductive TrackerType : Set :=
| TRACKER_INFINITAM
| TRACKER_RIFT
| TRACKER_ROBUSTVICON
| TRACKER_VICON.

(** The trackers the component can be given.  The boolean of the two
    ITMLib trackers tells whether [m_imuCalibrator.get()] was non-NULL when
    the tracker was made; the strings of the Vicon trackers are the tracker
    parameters and the subject name.  The further constructor arguments
    (image sizes, settings, engines, scene) are left out.  A composite
    tracker has a fixed number of slots, each empty or holding a tracker. *)
Unset Elimination Schemes.
Inductive Tracker : Set :=
| InfiniTAMTracker (imuCalibrator : bool)
| ICPTracker (imuCalibrator : bool)
| RiftTracker
| ViconTracker (trackerParams subjectName : string)
| RobustViconTracker (trackerParams subjectName : string)
| ITMCompositeTracker (slots : list (option Tracker)).
Set Elimination Schemes.

(** [ITMCompositeTracker::SetTracker(tracker, index)]. *)
Definition SetTracker (tracker : Tracker) (index : nat) (composite : Tracker)
  : Tracker :=
  match composite with
  | ITMCompositeTracker slots => ITMCompositeTracker (<[index := Some tracker]> slots)
  | other => other
  end.

Module Trackers.

(** The members [setup_tracker] writes; [m_imuCalibrator] tells whether
    the pointer is set. *)
Record t : Set := mk {
  m_tracker : option Tracker;
  m_fallibleTracker : option Tracker;
  m_imuCalibrator : bool
}.

(** The members before the body of the constructor runs. *)
Definition null : t := mk None None false.

End Trackers.

(** Lines 225-239: a composite of the primary tracker and an ICP tracker. *)
Definition make_hybrid_tracker (c : Trackers.t) (primaryTracker : Tracker)
  : Tracker :=
  let compositeTracker := ITMCompositeTracker (replicate 2 None) in
  let compositeTracker := SetTracker primaryTracker 0 compositeTracker in
  SetTracker (ICPTracker (Trackers.m_imuCalibrator c)) 1 compositeTracker.

(** Lines 241-288.  The left summand is the message of the
    [std::runtime_error] thrown when the support for the tracker was not
    compiled in. *)
Definition setup_tracker (build : BuildOptions) (m_trackerType : TrackerType)
    (m_trackerParams : string) (c : Trackers.t) : string + Trackers.t :=
  let c := Trackers.mk (Trackers.m_tracker c) None (Trackers.m_imuCalibrator c) in
  match m_trackerType with
  | TRACKER_RIFT =>
      if WITH_OVR build then
        inr (Trackers.mk (Some (make_hybrid_tracker c RiftTracker))
               (Trackers.m_fallibleTracker c) (Trackers.m_imuCalibrator c))
      else
        inl "Error: Rift support not currently available. Reconfigure in CMake with the WITH_OVR option set to on."%string
  | TRACKER_ROBUSTVICON =>
      if WITH_VICON build then
        let fallible := RobustViconTracker m_trackerParams "kinect" in
        inr (Trackers.mk (Some fallible) (Some fallible)
               (Trackers.m_imuCalibrator c))
      else
        inl "Error: Vicon support not currently available. Reconfigure in CMake with the WITH_VICON option set to on."%string
  | TRACKER_VICON =>
      if WITH_VICON build then
        let fallible := ViconTracker m_trackerParams "kinect" in
        let c := Trackers.mk (Trackers.m_tracker c) (Some fallible)
                   (Trackers.m_imuCalibrator c) in
        inr (Trackers.mk (Some (make_hybrid_tracker c fallible))
               (Trackers.m_fallibleTracker c) (Trackers.m_imuCalibrator c))
      else
        inl "Error: Vicon support not currently available. Reconfigure in CMake with the WITH_VICON option set to on."%string
  | TRACKER_INFINITAM =>
      let c := Trackers.mk (Trackers.m_tracker c) (Trackers.m_fallibleTracker c)
                 true in
      inr (Trackers.mk (Some (InfiniTAMTracker (Trackers.m_imuCalibrator c)))
             (Trackers.m_fallibleTracker c) (Trackers.m_imuCalibrator c))
  end.

(** Line 44: an image source without depth size reports -1; the RGB size
    is then used for the depth images. *)
Definition resolve_depthImageSize (rgbImageSize depthImageSize : Z * Z)
  : Z * Z :=
  if (depthImageSize.1 =? -1)%Z || (depthImageSize.2 =? -1)%Z
  then rgbImageSize else depthImageSize.

(** What the constructor does to the shared context and which engines it
    makes, in order.  The relocaliser is recorded with its image size and
    its two integer parameters. *)
Inductive SetupEvent : Set :=
| EvSetInputRGBImage (size : Z * Z)
| EvSetInputRawDepthImage (size : Z * Z)
| EvMakeLowLevelEngine
| EvMakeViewBuilder
| EvSetScene
| EvResetScene
| EvSetTrackingState (trackedImageSize : Z * Z)
| EvUpdateInitialPose
| EvSetLiveRenderState (trackedImageSize : Z * Z)
| EvNewPoseDatabase
| EvNewRelocaliser (depthImageSize : Z * Z) (numFerns numDecisionsPerFern : Z).

Section Construction.

Context {Pose : Type} `{!Inhabited Pose}.

(** What the constructor is given and what ITMLib answers: the sizes the
    image source reports, the failure mode of the settings,
    [ITMTrackingController::GetTrackedImageSize], the pose and verdict of a
    new [ITMTrackingState], and the tracker's [UpdateInitialPose]. *)
Record Surroundings : Type := mkSurroundings {
  getRGBImageSize : Z * Z;
  getDepthImageSize : Z * Z;
  settings_behaviourOnFailure : FailureMode;
  GetTrackedImageSize : Z * Z -> Z * Z -> Z * Z;
  newTrackingState : Pose * TrackingResult;
  UpdateInitialPose : Tracker -> Pose * TrackingResult -> Pose * TrackingResult
}.

(** Lines 46-64: everything before the tracker is set up. *)
Definition before_tracker (w : Surroundings) : list SetupEvent :=
  [EvSetInputRGBImage (getRGBImageSize w);
   EvSetInputRawDepthImage
     (resolve_depthImageSize (getRGBImageSize w) (getDepthImageSize w));
   EvMakeLowLevelEngine; EvMakeViewBuilder; EvSetScene; EvResetScene].

(** Lines 68-86: everything after the tracker has been set up. *)
Definition after_tracker (w : Surroundings) : list SetupEvent :=
  let rgbImageSize := getRGBImageSize w in
  let depthImageSize :=
    resolve_depthImageSize (getRGBImageSize w) (getDepthImageSize w) in
  let trackedImageSize := GetTrackedImageSize w rgbImageSize depthImageSize in
  [EvSetTrackingState trackedImageSize; EvUpdateInitialPose;
   EvSetLiveRenderState trackedImageSize; EvNewPoseDatabase;
   EvNewRelocaliser depthImageSize 500 4].

(** Lines 29-87.  On success: the state [run] will start from, the tracker
    members, and what was done on the way.  When [setup_tracker] throws,
    the constructor is left at that point: the message, and what had been
    done by then. *)
Definition SLAMComponent_new (build : BuildOptions) (w : Surroundings)
    (trackerType : TrackerType) (trackerParams : string)
  : string * list SetupEvent
    + SLAMState Pose * Trackers.t * list SetupEvent :=
  match setup_tracker build trackerType trackerParams Trackers.null with
  | inl message => inl (message, before_tracker w)
  | inr c =>
      let trackingState :=
        match Trackers.m_tracker c with
        | Some tracker => UpdateInitialPose w tracker (newTrackingState w)
        | None => newTrackingState w
        end in
      inr (mkState 0 true 50 0
             (bool_decide (is_Some (Trackers.m_fallibleTracker c))) ∅
             (settings_behaviourOnFailure w) trackingState.1 trackingState.2,
           c, before_tracker w ++ after_tracker w)
  end.

End Construction.

Arguments Surroundings : clear implicits.

(** ** Properties of the construction *)

Definition is_vicon (trackerType : TrackerType) : bool :=
  match trackerType with
  | TRACKER_ROBUSTVICON | TRACKER_VICON => true
  | _ => false
  end.

(** The support [setup_tracker] needs for a tracker type. *)
Definition supported (build : BuildOptions) (trackerType : TrackerType) : bool :=
  match trackerType with
  | TRACKER_INFINITAM => true
  | TRACKER_RIFT => WITH_OVR build
  | TRACKER_ROBUSTVICON | TRACKER_VICON => WITH_VICON build
  end.

(** The tracker [primary] is what [tracker] runs first: it is the tracker
    itself or sits in slot 0 of a composite tracker. *)
Definition runs_first (primary tracker : Tracker) : Prop :=
  tracker = primary \/
  exists slots, tracker = ITMCompositeTracker slots /\
                slots !! 0%nat = Some (Some primary).

(** The setup calls that come after the tracker has been set up. *)
Definition needs_tracker (e : SetupEvent) : bool :=
  match e with
  | EvSetTrackingState _ | EvUpdateInitialPose | EvSetLiveRenderState _
  | EvNewPoseDatabase | EvNewRelocaliser _ _ _ => true
  | _ => false
  end.

(** X16. [setup_tracker] throws exactly when the support for the requested
    tracker was not compiled in (the Rift tracker without [WITH_OVR], a
    Vicon tracker without [WITH_VICON]); otherwise it sets a tracker, and
    the default tracker is the only one made with an IMU calibrator. *)
Theorem setup_tracker_needs_support (build : BuildOptions)
    (trackerType : TrackerType) (trackerParams : string) (c : Trackers.t) :
  (supported build trackerType = false <->
   exists message, setup_tracker build trackerType trackerParams c = inl message) /\
  (supported build trackerType = true ->
   exists c', setup_tracker build trackerType trackerParams c = inr c' /\
              is_Some (Trackers.m_tracker c') /\
              (Trackers.m_imuCalibrator c' = true <->
               trackerType = TRACKER_INFINITAM \/
               Trackers.m_imuCalibrator c = true)).
Proof.
  split; [split |].
  - destruct trackerType; simpl; intros Hs; try discriminate;
      rewrite Hs; eexists; reflexivity.
  - intros [message Hm]. destruct trackerType; simpl in *; try discriminate;
      destruct build as [[] []]; simpl in *; congruence.
  - destruct trackerType; simpl; intros Hs; rewrite ?Hs; eexists;
      (split; [reflexivity |]); simpl; (split; [eexists; reflexivity |]);
      intuition congruence.
Qed.

(** X17. When [setup_tracker] succeeds, a fallible tracker is recorded
    exactly for the two Vicon tracker types, whatever was recorded before,
    and it is a tracker the component actually runs: the tracker itself
    (robust Vicon) or the primary tracker of the hybrid (Vicon), whose
    second slot holds the ICP tracker. *)
Theorem fallible_tracker_is_run (build : BuildOptions)
    (trackerType : TrackerType) (trackerParams : string) (c c' : Trackers.t) :
  setup_tracker build trackerType trackerParams c = inr c' ->
  (is_Some (Trackers.m_fallibleTracker c') <-> is_vicon trackerType = true) /\
  (forall fallible tracker,
     Trackers.m_fallibleTracker c' = Some fallible ->
     Trackers.m_tracker c' = Some tracker ->
     runs_first fallible tracker) /\
  (forall slots,
     Trackers.m_tracker c' = Some (ITMCompositeTracker slots) ->
     length slots = 2 /\
     slots !! 1%nat = Some (Some (ICPTracker (Trackers.m_imuCalibrator c)))).
Proof.
  intros Hsetup. unfold runs_first.
  destruct trackerType; simpl in Hsetup.
  - injection Hsetup as <-. simpl. split; [| split].
    + split; [intros [? ?] |]; discriminate.
    + intros ? ? ?; discriminate.
    + intros ? ?; discriminate.
  - destruct (WITH_OVR build); [| discriminate].
    injection Hsetup as <-. simpl. split; [| split].
    + split; [intros [? ?] |]; discriminate.
    + intros ? ? ?; discriminate.
    + intros slots [= <-]. split; reflexivity.
  - destruct (WITH_VICON build); [| discriminate].
    injection Hsetup as <-. simpl. split; [| split].
    + split; [reflexivity | eexists; reflexivity].
    + intros ? ? [= <-] [= <-]. left. reflexivity.
    + intros ? ?; discriminate.
  - destruct (WITH_VICON build); [| discriminate].
    injection Hsetup as <-. simpl. split; [| split].
    + split; [reflexivity | eexists; reflexivity].
    + intros ? ? [= <-] [= <-]. right. eexists. split; reflexivity.
    + intros slots [= <-]. split; reflexivity.
Qed.

Section ConstructionFacts.

Context {Pose : Type} `{!Inhabited Pose}.

(** What the constructor did, whether it succeeded or not. *)
Definition setup_events
    (outcome : string * list SetupEvent
               + SLAMState Pose * Trackers.t * list SetupEvent)
  : list SetupEvent :=
  match outcome with
  | inl (_, done) => done
  | inr (_, _, done) => done
  end.

(** X18. Whenever the constructor makes the input depth image or the
    relocaliser, it makes them with the depth size the image source
    reports, or with the RGB size when a component of that depth size is
    -1; so neither is ever made with a component -1 when the RGB size has
    none. *)
Theorem depth_size_fallback (build : BuildOptions) (w : Surroundings Pose)
    (trackerType : TrackerType) (trackerParams : string) (size : Z * Z) :
  In (EvSetInputRawDepthImage size)
     (setup_events (SLAMComponent_new build w trackerType trackerParams)) \/
  (exists numFerns numDecisionsPerFern,
     In (EvNewRelocaliser size numFerns numDecisionsPerFern)
        (setup_events (SLAMComponent_new build w trackerType trackerParams))) ->
  ((getDepthImageSize w).1 = (-1)%Z \/ (getDepthImageSize w).2 = (-1)%Z ->
   size = getRGBImageSize w) /\
  ((getDepthImageSize w).1 <> (-1)%Z -> (getDepthImageSize w).2 <> (-1)%Z ->
   size = getDepthImageSize w) /\
  ((getRGBImageSize w).1 <> (-1)%Z -> (getRGBImageSize w).2 <> (-1)%Z ->
   size.1 <> (-1)%Z /\ size.2 <> (-1)%Z).
Proof.
  intros Hmade.
  assert (Hsize : size = resolve_depthImageSize (getRGBImageSize w)
                           (getDepthImageSize w)).
  { unfold SLAMComponent_new in Hmade.
    destruct (setup_tracker build trackerType trackerParams Trackers.null);
      simpl in Hmade.
    - destruct Hmade as [Hin | (n & m & Hin)];
        repeat (destruct Hin as [Hin | Hin]; [congruence |]); contradiction.
    - destruct Hmade as [Hin | (n & m & Hin)];
        repeat (destruct Hin as [Hin | Hin]; [congruence |]); contradiction. }
  subst size. unfold resolve_depthImageSize.
  destruct (Z.eqb_spec (getDepthImageSize w).1 (-1)),
    (Z.eqb_spec (getDepthImageSize w).2 (-1)); simpl; intuition congruence.
Qed.

(** X19. The constructor fails exactly when the requested tracker is not
    supported, with the message of [setup_tracker]; by then the input
    images and the scene have been put into the shared context and the
    scene has been reset, but no tracking state, render state, pose
    database or relocaliser has been made. *)
Theorem construction_stops_at_tracker (build : BuildOptions)
    (w : Surroundings Pose) (trackerType : TrackerType)
    (trackerParams : string) :
  (supported build trackerType = false <->
   exists failure, SLAMComponent_new build w trackerType trackerParams
                   = inl failure) /\
  (forall message done,
     SLAMComponent_new build w trackerType trackerParams = inl (message, done) ->
     setup_tracker build trackerType trackerParams Trackers.null = inl message /\
     done =
       [EvSetInputRGBImage (getRGBImageSize w);
        EvSetInputRawDepthImage
          (resolve_depthImageSize (getRGBImageSize w) (getDepthImageSize w));
        EvMakeLowLevelEngine; EvMakeViewBuilder; EvSetScene; EvResetScene] /\
     existsb needs_tracker done = false).
Proof.
  unfold SLAMComponent_new. split; [split |].
  - intros Hs. destruct trackerType; simpl in *; try discriminate;
      rewrite Hs; eexists; reflexivity.
  - intros [failure Hf].
    destruct (setup_tracker build trackerType trackerParams Trackers.null)
      as [message | c] eqn:Hsetup; [| discriminate].
    destruct trackerType; simpl in *; try discriminate;
      destruct build as [[] []]; simpl in *; congruence.
  - intros message done Hnew.
    destruct (setup_tracker build trackerType trackerParams Trackers.null)
      as [message' | c]; [| discriminate].
    injection Hnew as -> <-. repeat split; reflexivity.
Qed.

(** X20. A successfully constructed component has fused nothing, has
    fusion enabled, 50 initial frames to fuse, no keyframe delay and an
    empty pose database, takes its pose and verdict from the tracker's
    initial pose update, and has a fallible tracker exactly for the Vicon
    tracker types. *)
Theorem constructed_state (build : BuildOptions) (w : Surroundings Pose)
    (trackerType : TrackerType) (trackerParams : string)
    (s0 : SLAMState Pose) (c : Trackers.t) (done : list SetupEvent) :
  SLAMComponent_new build w trackerType trackerParams = inr (s0, c, done) ->
  m_fusedFramesCount s0 = 0%N /\
  get_fusion_enabled s0 = true /\
  m_initialFramesToFuse s0 = 50%N /\
  m_keyframeDelay s0 = 0%N /\
  m_poseDatabase s0 = ∅ /\
  behaviourOnFailure s0 = settings_behaviourOnFailure w /\
  m_fallibleTracker s0 = is_vicon trackerType /\
  (exists tracker,
     Trackers.m_tracker c = Some tracker /\
     (pose_d s0, trackerResult s0) =
       UpdateInitialPose w tracker (newTrackingState w)).
Proof.
  unfold SLAMComponent_new. intros Hnew.
  destruct (setup_tracker build trackerType trackerParams Trackers.null)
    as [message | c0] eqn:Hsetup; [discriminate |].
  injection Hnew as <- <- <-.
  assert (Hc : is_Some (Trackers.m_tracker c0) /\
               bool_decide (is_Some (Trackers.m_fallibleTracker c0)) =
               is_vicon trackerType).
  { destruct trackerType; simpl in Hsetup;
      try (destruct (WITH_OVR build); [| discriminate]);
      try (destruct (WITH_VICON build); [| discriminate]);
      injection Hsetup as <-; simpl; split;
      solve [eexists; reflexivity | reflexivity]. }
  destruct Hc as [[tracker Htracker] Hfallible].
  repeat split; try reflexivity; try exact Hfallible.
  - exists tracker. split; [exact Htracker |]. rewrite Htracker. simpl.
    destruct (UpdateInitialPose w tracker (newTrackingState w)); reflexivity.
Qed.

(** X21. Over any session of a successfully constructed component the
    fused-frame count is the number of calls on which the dense mapper
    fused, modulo the range of [size_t] (so the number itself as long as it
    does not exceed [SIZE_MAX]), the keyframe delay is at most 10, and with
    the default or the Rift tracker no call ever asks a tracker whether it
    lost tracking. *)
Theorem constructed_session (build : BuildOptions) (w : Surroundings Pose)
    (trackerType : TrackerType) (trackerParams : string)
    (s0 : SLAMState Pose) (c : Trackers.t) (done : list SetupEvent)
    (cs : list (Call Pose)) :
  SLAMComponent_new build w trackerType trackerParams = inr (s0, c, done) ->
  m_fusedFramesCount (exec cs s0) =
    (N.of_nat (fused_calls cs s0) mod (SIZE_MAX + 1))%N /\
  ((N.of_nat (fused_calls cs s0) <= SIZE_MAX)%N ->
   m_fusedFramesCount (exec cs s0) = N.of_nat (fused_calls cs s0)) /\
  (m_keyframeDelay (exec cs s0) <= 10)%N /\
  m_initialFramesToFuse (exec cs s0) = 50%N /\
  (is_vicon trackerType = false ->
   existsb is_lost_query (session_events cs s0) = false).
Proof.
  unfold SLAMComponent_new. intros Hnew.
  destruct (setup_tracker build trackerType trackerParams Trackers.null)
    as [message | c0] eqn:Hsetup; [discriminate |].
  injection Hnew as <- <- <-.
  split; [| split; [| split; [| split]]].
  - rewrite fusedFramesCount_exec by (simpl; unfold SIZE_MAX; lia).
    reflexivity.
  - intros Hb. rewrite fusedFramesCount_exec_below by (simpl; lia).
    reflexivity.
  - pose proof (keyframeDelay_bounded cs
      (mkState 0 true 50 0
         (bool_decide (is_Some (Trackers.m_fallibleTracker c0))) ∅
         (settings_behaviourOnFailure w)
         (match Trackers.m_tracker c0 with
          | Some tracker => UpdateInitialPose w tracker (newTrackingState w)
          | None => newTrackingState w
          end).1
         (match Trackers.m_tracker c0 with
          | Some tracker => UpdateInitialPose w tracker (newTrackingState w)
          | None => newTrackingState w
          end).2)) as Hb.
    simpl in Hb. exact Hb.
  - apply config_exec.
  - intros Hplain. apply lost_never_asked. simpl.
    destruct trackerType; simpl in *; try discriminate;
      try (destruct (WITH_OVR build); [| discriminate]);
      injection Hsetup as <-; reflexivity.
Qed.

End ConstructionFacts.

(** ** Further scenarios *)

(** A session under the stop-integration mode, ten frames in, with a
    fallible tracker. *)
Definition warming_up : SLAMState Z :=
  mkState 10 true 50 0 true ∅ FAILUREMODE_STOP_INTEGRATION 5%Z TRACKING_GOOD.

(** Tracking is good but the fallible tracker reports that it is lost. *)
Definition frame_vicon_lost : Frame Z :=
  mkFrame true (tracker_moves TRACKING_GOOD) relocaliser_silent
    (tracker_moves TRACKING_GOOD) true true.

Definition quiet_session : list (Call Z) :=
  [CallRun (frame_tracked TRACKING_GOOD); CallSetFusionEnabled false;
   CallRun (frame_tracked TRACKING_POOR); CallRun no_frame].

(** A camera of 640 by 480 pixels without depth size of its own; new
    tracking states start at pose 0 with verdict GOOD, and the trackers
    leave the initial pose alone. *)
Definition rgb_only_camera : Surroundings Z :=
  mkSurroundings (640, 480)%Z (-1, -1)%Z FAILUREMODE_RELOCALISE
    (fun rgb depth => depth) (0%Z, TRACKING_GOOD) (fun _ state => state).

Definition vicon_build : BuildOptions := mkBuild false true.

Lemma relocalisation_idle_in_other_modes_witness :
  behaviourOnFailure warming_up <> FAILUREMODE_RELOCALISE /\
  existsb policy_call
    (events (run (frame_tracked TRACKING_FAILED) warming_up)) = false /\
  m_keyframeDelay (state_of (run (frame_tracked TRACKING_FAILED) warming_up)) =
    m_keyframeDelay warming_up /\
  m_poseDatabase (state_of (run (frame_tracked TRACKING_FAILED) warming_up)) =
    m_poseDatabase warming_up.
Proof.
  split; [discriminate |].
  apply (relocalisation_idle_in_other_modes
           (frame_tracked TRACKING_FAILED) warming_up).
  discriminate.
Defined.

Lemma stop_integration_keeps_going_witness :
  hasMoreImages (frame_tracked TRACKING_FAILED) = true /\
  behaviourOnFailure warming_up = FAILUREMODE_STOP_INTEGRATION /\
  effective_verdict (frame_tracked TRACKING_FAILED) warming_up = TRACKING_POOR /\
  pose_d (state_of (run (frame_tracked TRACKING_FAILED) warming_up)) = 6%Z /\
  fusion_executed (frame_tracked TRACKING_FAILED) warming_up = true.
Proof.
  destruct (stop_integration_keeps_going (frame_tracked TRACKING_FAILED)
              warming_up eq_refl eq_refl) as (Heff & _ & Hpose & Hfuse).
  split; [reflexivity |]. split; [reflexivity |].
  split; [exact Heff |]. split; [exact Hpose |].
  apply Hfuse; [reflexivity | reflexivity | intros _; reflexivity].
Defined.

Lemma one_outcome_per_frame_witness :
  hasMoreImages (frame_tracked TRACKING_POOR) = true /\
  visibility_updated (frame_tracked TRACKING_POOR) mapping = true /\
  fusion_executed (frame_tracked TRACKING_POOR) mapping = false /\
  pose_d (state_of (run (frame_tracked TRACKING_POOR) mapping)) = 21%Z.
Proof.
  destruct (one_outcome_per_frame (frame_tracked TRACKING_POOR) mapping eq_refl)
    as (Hvis & _ & Hpose).
  split; [reflexivity |]. split; [exact Hvis |].
  split; [reflexivity | exact Hpose].
Defined.

Lemma verdict_in_tracking_state_witness :
  hasMoreImages (frame_tracked TRACKING_FAILED) = true /\
  behaviourOnFailure (set_fusion_enabled true
                        (state_of (run (frame_tracked TRACKING_GOOD)
                                     (constructed FAILUREMODE_IGNORE false))))
    = FAILUREMODE_IGNORE /\
  effective_verdict (frame_tracked TRACKING_FAILED)
    (state_of (run (frame_tracked TRACKING_GOOD)
                 (constructed FAILUREMODE_IGNORE false))) = TRACKING_GOOD /\
  trackerResult
    (state_of (run (frame_tracked TRACKING_FAILED)
                 (state_of (run (frame_tracked TRACKING_GOOD)
                              (constructed FAILUREMODE_IGNORE false)))))
    = TRACKING_FAILED.
Proof.
  destruct (verdict_in_tracking_state (frame_tracked TRACKING_FAILED)
              (state_of (run (frame_tracked TRACKING_GOOD)
                           (constructed FAILUREMODE_IGNORE false))) eq_refl)
    as [_ Hignore].
  destruct (Hignore eq_refl) as [Heff Hkept].
  split; [reflexivity |]. split; [reflexivity |].
  split; [exact Heff | exact Hkept].
Defined.

Lemma lost_tracking_stops_fusion_witness :
  hasMoreImages frame_vicon_lost = true /\
  m_fallibleTracker warming_up = true /\
  lost_tracking frame_vicon_lost = true /\
  fusion_executed frame_vicon_lost warming_up = false /\
  m_fusedFramesCount (state_of (run frame_vicon_lost warming_up)) = 10%N /\
  visibility_updated frame_vicon_lost warming_up = true /\
  pose_d (state_of (run frame_vicon_lost warming_up)) = 6%Z.
Proof.
  destruct (lost_tracking_stops_fusion frame_vicon_lost warming_up
              eq_refl eq_refl eq_refl) as (Hfused & Hcount & Hkeep).
  destruct (Hkeep ltac:(discriminate)) as [Hvis Hpose].
  repeat split; assumption.
Defined.

Lemma nothing_fused_while_disabled_witness :
  m_fusionEnabled (set_fusion_enabled false mapping) = false /\
  forallb (fun c => negb (is_enable c)) quiet_session = true /\
  existsb is_fuse
    (session_events quiet_session (set_fusion_enabled false mapping)) = false /\
  m_fusedFramesCount (exec quiet_session (set_fusion_enabled false mapping)) =
    80%N.
Proof.
  split; [reflexivity |]. split; [reflexivity |].
  apply (nothing_fused_while_disabled quiet_session
           (set_fusion_enabled false mapping)); reflexivity.
Defined.

Lemma pose_frozen_before_first_fusion_witness :
  m_fusedFramesCount
    (set_fusion_enabled false (constructed FAILUREMODE_RELOCALISE false)) = 0%N /\
  recovery_free quiet_session
    (set_fusion_enabled false (constructed FAILUREMODE_RELOCALISE false)) = true /\
  existsb is_track
    (session_events quiet_session
       (set_fusion_enabled false (constructed FAILUREMODE_RELOCALISE false)))
    = false /\
  pose_d
    (exec quiet_session
       (set_fusion_enabled false (constructed FAILUREMODE_RELOCALISE false)))
    = 0%Z.
Proof.
  split; [reflexivity |]. split; [vm_compute; reflexivity |].
  apply (pose_frozen_before_first_fusion quiet_session
           (set_fusion_enabled false (constructed FAILUREMODE_RELOCALISE false)));
    vm_compute; reflexivity.
Defined.

Lemma keyframe_delay_countdown_witness :
  behaviourOnFailure (state_of (run (frame_lost TRACKING_GOOD) mapping)) =
    FAILUREMODE_RELOCALISE /\
  recovery_free interrupted_recovery
    (state_of (run (frame_lost TRACKING_GOOD) mapping)) = true /\
  m_keyframeDelay
    (exec interrupted_recovery
       (state_of (run (frame_lost TRACKING_GOOD) mapping))) = 0%N /\
  considers_keyframe (frame_tracked TRACKING_GOOD)
    (exec interrupted_recovery
       (state_of (run (frame_lost TRACKING_GOOD) mapping))) = true.
Proof.
  split; [reflexivity |]. split; [vm_compute; reflexivity |].
  destruct (keyframe_delay_countdown interrupted_recovery
              (frame_tracked TRACKING_GOOD)
              (state_of (run (frame_lost TRACKING_GOOD) mapping))
              eq_refl ltac:(vm_compute; reflexivity)) as [Hdelay Hflag].
  split; [rewrite Hdelay | rewrite Hflag]; vm_compute; reflexivity.
Defined.

Lemma fallible_tracker_is_run_witness :
  setup_tracker vicon_build TRACKER_VICON "vicon:801" Trackers.null =
    inr (Trackers.mk
           (Some (ITMCompositeTracker
                    [Some (ViconTracker "vicon:801" "kinect");
                     Some (ICPTracker false)]))
           (Some (ViconTracker "vicon:801" "kinect")) false) /\
  runs_first (ViconTracker "vicon:801" "kinect")
    (ITMCompositeTracker
       [Some (ViconTracker "vicon:801" "kinect"); Some (ICPTracker false)]).
Proof.
  split; [reflexivity |].
  destruct (fallible_tracker_is_run vicon_build TRACKER_VICON "vicon:801"
              Trackers.null _ eq_refl) as (_ & Hruns & _).
  apply Hruns; reflexivity.
Defined.

Lemma depth_size_fallback_witness :
  In (EvSetInputRawDepthImage (640, 480)%Z)
     (setup_events
        (SLAMComponent_new vicon_build rgb_only_camera TRACKER_RIFT "")) /\
  (getDepthImageSize rgb_only_camera).1 = (-1)%Z /\
  (640, 480)%Z = getRGBImageSize rgb_only_camera.
Proof.
  assert (Hin : In (EvSetInputRawDepthImage (640, 480)%Z)
                   (setup_events
                      (SLAMComponent_new vicon_build rgb_only_camera
                         TRACKER_RIFT ""))).
  { vm_compute. auto. }
  destruct (depth_size_fallback vicon_build rgb_only_camera TRACKER_RIFT ""
              (640, 480)%Z (or_introl Hin)) as (Hrgb & _ & _).
  split; [exact Hin |]. split; [reflexivity |].
  apply Hrgb. left. reflexivity.
Defined.

Lemma constructed_state_witness :
  SLAMComponent_new vicon_build rgb_only_camera TRACKER_ROBUSTVICON "vicon:801" =
    inr (constructed FAILUREMODE_RELOCALISE true,
         Trackers.mk (Some (RobustViconTracker "vicon:801" "kinect"))
           (Some (RobustViconTracker "vicon:801" "kinect")) false,
         before_tracker rgb_only_camera ++ after_tracker rgb_only_camera) /\
  m_fusedFramesCount (constructed FAILUREMODE_RELOCALISE true) = 0%N /\
  get_fusion_enabled (constructed FAILUREMODE_RELOCALISE true) = true /\
  m_fallibleTracker (constructed FAILUREMODE_RELOCALISE true) = true.
Proof.
  assert (Hnew :
    SLAMComponent_new vicon_build rgb_only_camera TRACKER_ROBUSTVICON "vicon:801" =
    inr (constructed FAILUREMODE_RELOCALISE true,
         Trackers.mk (Some (RobustViconTracker "vicon:801" "kinect"))
           (Some (RobustViconTracker "vicon:801" "kinect")) false,
         before_tracker rgb_only_camera ++ after_tracker rgb_only_camera))
    by reflexivity.
  destruct (constructed_state vicon_build rgb_only_camera TRACKER_ROBUSTVICON
              "vicon:801" _ _ _ Hnew)
    as (Hcount & Hen & _ & _ & _ & _ & Hfallible & _).
  repeat split; assumption.
Defined.

Lemma constructed_session_witness :
  SLAMComponent_new (mkBuild false false) rgb_only_camera TRACKER_INFINITAM "" =
    inr (constructed FAILUREMODE_RELOCALISE false,
         Trackers.mk (Some (InfiniTAMTracker true)) None true,
         before_tracker rgb_only_camera ++ after_tracker rgb_only_camera) /\
  m_fusedFramesCount
    (exec quiet_session (constructed FAILUREMODE_RELOCALISE false)) =
    N.of_nat (fused_calls quiet_session
                (constructed FAILUREMODE_RELOCALISE false)) /\
  (m_keyframeDelay
     (exec quiet_session (constructed FAILUREMODE_RELOCALISE false)) <= 10)%N /\
  existsb is_lost_query
    (session_events quiet_session (constructed FAILUREMODE_RELOCALISE false))
    = false.
Proof.
  assert (Hnew :
    SLAMComponent_new (mkBuild false false) rgb_only_camera TRACKER_INFINITAM "" =
    inr (constructed FAILUREMODE_RELOCALISE false,
         Trackers.mk (Some (InfiniTAMTracker true)) None true,
         before_tracker rgb_only_camera ++ after_tracker rgb_only_camera))
    by reflexivity.
  destruct (constructed_session (mkBuild false false) rgb_only_camera
              TRACKER_INFINITAM "" _ _ _ quiet_session Hnew)
    as (_ & Hcount & Hdelay & _ & Hlost).
  split; [exact Hnew |].
  split; [apply Hcount; vm_compute; discriminate |].
  split; [exact Hdelay | apply Hlost; reflexivity].
Defined.



